(** * manifest-annotator: a shallow embedding of [annotator.go]

    The tool reads a YAML file as a sequence of lines, splits it into
    documents at the lines starting with [---], locates the [metadata:]
    block of each document and the [annotations:] block inside it, merges
    one annotation into that block and writes the whole file back when the
    last document reports a change.

    The repository holds three revisions of the annotation merger
    ([processAnnotations]); the scanner around it ([Run], [processManifest],
    [processMetadata], [readLines]) is the same text in all three.
    - the entry-based, skip-aware merger of [annotator.go] is embedded at
      top level, with the scanner;
    - the value-reconciling merger (second half of [annotator.go]) is
      embedded in [Module Reconciling];
    - the line-sorting merger with [annotationSorter] is embedded in
      [Module LineSorter].

    Go strings are byte strings: they are modelled by [string], whose
    characters are the 256 byte values.  The [bytes.Buffer] every function
    writes into is threaded explicitly. *)

From Stdlib Require Import String Ascii List Bool Arith NArith Lia.
From Stdlib Require Import Permutation Sorted.
Import ListNotations.

Open Scope string_scope.
Open Scope bool_scope.

(** ** Strings: the pieces of Go's [strings] package the code uses *)

(** The line terminator ["\n"]. *)
Definition nl : string := String "010"%char EmptyString.

(** [strings.HasPrefix(s, prefix)]. *)
Definition HasPrefix (s pre : string) : bool := String.prefix pre s.

(** [s[n:]]: the string without its first [n] bytes. *)
Definition dropBytes (n : nat) (s : string) : string :=
  substring n (String.length s - n) s.

(** [strings.TrimPrefix(s, prefix)]. *)
Definition TrimPrefix (s pre : string) : string :=
  if HasPrefix s pre then dropBytes (String.length pre) s else s.

(** The table [asciiSpace] of [strings.TrimSpace]:
    ['\t'], ['\n'], ['\v'], ['\f'], ['\r'] and [' ']. *)
Definition asciiSpace (c : ascii) : bool :=
  match N_of_ascii c with
  | 9%N | 10%N | 11%N | 12%N | 13%N | 32%N => true
  | _ => false
  end.

(** The runes of [unicode.IsSpace] beyond ASCII, by their UTF-8 encoding:
    U+0085 and U+00A0 (two bytes after [C2]); U+1680, U+2000..U+200A,
    U+2028, U+2029, U+202F, U+205F and U+3000 (three bytes). *)
Definition space2 (b0 b1 : ascii) : bool :=
  match N_of_ascii b0, N_of_ascii b1 with
  | 194%N, 133%N | 194%N, 160%N => true
  | _, _ => false
  end.

Definition space3 (b0 b1 b2 : ascii) : bool :=
  match N_of_ascii b0, N_of_ascii b1, N_of_ascii b2 with
  | 225%N, 154%N, 128%N => true
  | 226%N, 128%N, e => (N.leb 128 e && N.leb e 138)
                       || N.eqb e 168 || N.eqb e 169 || N.eqb e 175
  | 226%N, 129%N, 159%N => true
  | 227%N, 128%N, 128%N => true
  | _, _, _ => false
  end.

(** [strings.TrimLeftFunc(s, unicode.IsSpace)]: drop leading white-space
    runes.  A byte that starts no white-space rune stops the scan. *)
Fixpoint trimLeftSpace (s : string) : string :=
  match s with
  | EmptyString => s
  | String b0 r1 =>
      if asciiSpace b0 then trimLeftSpace r1
      else match r1 with
           | EmptyString => s
           | String b1 r2 =>
               if space2 b0 b1 then trimLeftSpace r2
               else match r2 with
                    | EmptyString => s
                    | String b2 r3 =>
                        if space3 b0 b1 b2 then trimLeftSpace r3 else s
                    end
           end
  end.

Fixpoint revString (acc s : string) : string :=
  match s with
  | EmptyString => acc
  | String c r => revString (String c acc) r
  end.

(** The same scan from the right end, on the reversed string: the bytes of
    a rune arrive last byte first. *)
Fixpoint trimLeftSpaceRev (s : string) : string :=
  match s with
  | EmptyString => s
  | String b0 r1 =>
      if asciiSpace b0 then trimLeftSpaceRev r1
      else match r1 with
           | EmptyString => s
           | String b1 r2 =>
               if space2 b1 b0 then trimLeftSpaceRev r2
               else match r2 with
                    | EmptyString => s
                    | String b2 r3 =>
                        if space3 b2 b1 b0 then trimLeftSpaceRev r3 else s
                    end
           end
  end.

(** [strings.TrimRightFunc(s, unicode.IsSpace)]. *)
Definition trimRightSpace (s : string) : string :=
  revString EmptyString (trimLeftSpaceRev (revString EmptyString s)).

(** [strings.TrimSpace(s)]: white space removed at both ends. *)
Definition TrimSpace (s : string) : string :=
  trimRightSpace (trimLeftSpace s).

(** [strings.Cut(s, ":")]: the text before and after the first [:]. *)
Fixpoint cutColon (s : string) : option (string * string) :=
  match s with
  | EmptyString => None
  | String c r =>
      if Ascii.eqb c ":"%char then Some (EmptyString, r)
      else match cutColon r with
           | Some (before, after) => Some (String c before, after)
           | None => None
           end
  end.

(** [strings.SplitN(s, ":", 2)]: one part when [s] holds no [:], else the
    text before the first [:] and the text after it. *)
Definition SplitN2 (s : string) : list string :=
  match cutColon s with
  | Some (before, after) => [before; after]
  | None => [s]
  end.

(** ** The output buffer *)

Definition Buffer := string.

(** [out.WriteString(s)]. *)
Definition WriteString (out : Buffer) (s : string) : Buffer := out ++ s.

(** The loop [for _, line := range lines { out.WriteString(line + "\n") }]. *)
Definition writeLines (out : Buffer) (ls : list string) : Buffer :=
  fold_left (fun o line => WriteString o (line ++ nl)) ls out.

(** ** Data *)

Record manifestAnnotator := {
  FileName : string;
  Annotation : string;
  SkipAnnotation : string;
  Value : string;
  Kind : string;
  GroupVersion : string;
  Name : string;
  Namespace : string
}.

Record annotation := { key : string; lines : list string }.

Definition annotations := list annotation.

(** ** The annotation block ([type annotations]) *)

(** [annotations.Less], on the two entries it indexes. *)
Definition Less (x y : annotation) : bool := String.ltb (key x) (key y).

(** [sort.Sort]'s [insertionSort]: every element in turn moves left while it
    is [less] than its left neighbour.  The sorted part is kept reversed, so
    that the left neighbour is its head. *)
Section InsertionSort.
Context {A : Type} (less : A -> A -> bool).

Fixpoint sinkLeft (x : A) (revSorted : list A) : list A :=
  match revSorted with
  | [] => [x]
  | y :: ys => if less x y then y :: sinkLeft x ys else x :: revSorted
  end.

Definition insertionSort (l : list A) : list A :=
  rev (fold_left (fun acc x => sinkLeft x acc) l []).
End InsertionSort.

(** [annotations.Sort].  [sort.Sort] is not stable and picks its algorithm
    by length; on the short slices of the examples below it runs
    [insertionSort], and the general statements use of it only that the
    result is a permutation sorted by [Less]. *)
Definition Sort (a : annotations) : annotations := insertionSort Less a.

(** [annotations.Includes]. *)
Definition Includes (a : annotations) (k : string) : bool :=
  existsb (fun aa => String.eqb (key aa) k) a.

(** [annotations.Write]. *)
Definition Write (a : annotations) (out : Buffer) : Buffer :=
  fold_left (fun o aa => writeLines o (lines aa)) a out.

(** [newAnnotation]: [fmt.Sprintf("    %s: %s", key, value)]. *)
Definition newAnnotation (k v : string) : annotation :=
  {| key := k; lines := ["    " ++ k ++ ": " ++ v] |}.

(** [annotations.Add]. *)
Definition Add (a : annotations) (k v : string) : annotations :=
  (a ++ [newAnnotation k v])%list.

(** The state of the loop of [parseAnnotations]: [currentAnnotation] (a nil
    pointer is [None]) and [result]. *)
Definition parseState := (option annotation * annotations)%type.

Definition flush (st : parseState) : annotations :=
  match fst st with
  | Some c => (snd st ++ [c])%list
  | None => snd st
  end.

Definition parseStep (st : parseState) (line : string) : parseState :=
  if HasPrefix line "      " then
    match fst st with
    | Some c => (Some {| key := key c; lines := (lines c ++ [line])%list |}, snd st)
    | None => st
    end
  else
    match SplitN2 line with
    | p0 :: _ :: _ =>
        (Some {| key := TrimSpace p0; lines := [line] |}, flush st)
    | _ => st
    end.

Definition parseAnnotations (ls : list string) : annotations :=
  flush (fold_left parseStep ls (None, [])).

(** ** The merger, [processAnnotations] *)

Definition processAnnotations (a : manifestAnnotator) (ls : list string)
    (out : Buffer) : Buffer * bool :=
  let anns := parseAnnotations ls in
  if negb (Includes anns (Annotation a))
     && negb (Includes anns (SkipAnnotation a))
  then (Write (Sort (Add anns (Annotation a) (Value a))) out, true)
  else (Write anns out, false).

(** ** The metadata block, [processMetadata] *)

(** The first loop of [processMetadata]: [name] and [namespace], the last
    occurrence winning. *)
Definition identStep (st : string * string) (line : string)
    : string * string :=
  let name :=
    if HasPrefix line "  name:"
    then TrimSpace (TrimPrefix line "  name:") else fst st in
  let namespace :=
    if HasPrefix line "  namespace:"
    then TrimSpace (TrimPrefix line "  namespace:") else snd st in
  (name, namespace).

Definition scanIdent (ls : list string) : string * string :=
  fold_left identStep ls (EmptyString, EmptyString).

(** One disjunct of [skipProcessing]: [len(want) > 0 && want != got]. *)
Definition differs (want got : string) : bool :=
  (0 <? String.length want)%nat && negb (String.eqb want got).

Definition skipProcessing (a : manifestAnnotator)
    (kind groupVersion name namespace : string) : bool :=
  differs (Kind a) kind
  || differs (GroupVersion a) groupVersion
  || differs (Name a) name
  || differs (Namespace a) namespace.

(** The variables of the second loop of [processMetadata]. *)
Record metaState := {
  annotationLines : list string;
  inAnnotations : bool;
  annotationsProcessed : bool;
  mChanged : bool;
  mOut : Buffer
}.

(** The branch [!strings.HasPrefix(line, "    ")]: the open block ends. *)
Definition closeAnnotations (a : manifestAnnotator) (st : metaState)
    : metaState :=
  let r := processAnnotations a (annotationLines st) (mOut st) in
  {| annotationLines := annotationLines st;
     inAnnotations := false;
     annotationsProcessed := true;
     mChanged := snd r;
     mOut := fst r |}.

(** The branch that appends to [annotationLines] and [continue]s. *)
Definition collectAnnotation (st : metaState) (line : string) : metaState :=
  {| annotationLines := (annotationLines st ++ [line])%list;
     inAnnotations := inAnnotations st;
     annotationsProcessed := annotationsProcessed st;
     mChanged := mChanged st;
     mOut := mOut st |}.

(** The tail of the loop body: the test for [  annotations:] and the
    write. *)
Definition emitMetadataLine (st : metaState) (line : string) : metaState :=
  {| annotationLines := annotationLines st;
     inAnnotations :=
       if HasPrefix line "  annotations:" then true else inAnnotations st;
     annotationsProcessed := annotationsProcessed st;
     mChanged := mChanged st;
     mOut := WriteString (mOut st) (line ++ nl) |}.

Definition metadataStep (a : manifestAnnotator) (st : metaState)
    (line : string) : metaState :=
  if inAnnotations st then
    if negb (HasPrefix line "    ")
    then emitMetadataLine (closeAnnotations a st) line
    else collectAnnotation st line
  else emitMetadataLine st line.

(** What follows the loop: the synthesized [  annotations:] line when no
    annotation line was collected, and the merge when none ran yet. *)
Definition finishMetadata (a : manifestAnnotator) (st : metaState)
    : Buffer * bool :=
  let st1 :=
    if (List.length (annotationLines st) =? 0)%nat then
      {| annotationLines := annotationLines st;
         inAnnotations := inAnnotations st;
         annotationsProcessed := annotationsProcessed st;
         mChanged := true;
         mOut := WriteString (mOut st) ("  annotations:" ++ nl) |}
    else st in
  if negb (annotationsProcessed st1)
  then processAnnotations a (annotationLines st1) (mOut st1)
  else (mOut st1, mChanged st1).

Definition processMetadata (a : manifestAnnotator) (ls : list string)
    (kind groupVersion : string) (out : Buffer) : Buffer * bool :=
  let (name, namespace) := scanIdent ls in
  if skipProcessing a kind groupVersion name namespace then
    (writeLines out ls, false)
  else
    finishMetadata a
      (fold_left (metadataStep a) ls
         {| annotationLines := []; inAnnotations := false;
            annotationsProcessed := false; mChanged := false;
            mOut := out |}).

(** ** One document, [processManifest] *)

(** The first loop: [kind] and [groupVersion]. *)
Definition headerStep (st : string * string) (line : string)
    : string * string :=
  if HasPrefix line "kind:"
  then (TrimSpace (TrimPrefix line "kind:"), snd st)
  else if HasPrefix line "apiVersion:"
  then (fst st, TrimSpace (TrimPrefix line "apiVersion:"))
  else st.

Definition scanHeader (ls : list string) : string * string :=
  fold_left headerStep ls (EmptyString, EmptyString).

(** The variables of the second loop of [processManifest]. *)
Record manifestState := {
  metadataLines : list string;
  inMetadata : bool;
  metadataProcessed : bool;
  dChanged : bool;
  dOut : Buffer
}.

Definition closeMetadata (a : manifestAnnotator) (kind groupVersion : string)
    (st : manifestState) : manifestState :=
  let r := processMetadata a (metadataLines st) kind groupVersion (dOut st) in
  {| metadataLines := metadataLines st;
     inMetadata := false;
     metadataProcessed := true;
     dChanged := snd r;
     dOut := fst r |}.

Definition collectMetadata (st : manifestState) (line : string)
    : manifestState :=
  {| metadataLines := (metadataLines st ++ [line])%list;
     inMetadata := inMetadata st;
     metadataProcessed := metadataProcessed st;
     dChanged := dChanged st;
     dOut := dOut st |}.

Definition emitManifestLine (st : manifestState) (line : string)
    : manifestState :=
  {| metadataLines := metadataLines st;
     inMetadata := if HasPrefix line "metadata:" then true else inMetadata st;
     metadataProcessed := metadataProcessed st;
     dChanged := dChanged st;
     dOut := WriteString (dOut st) (line ++ nl) |}.

Definition manifestStep (a : manifestAnnotator) (kind groupVersion : string)
    (st : manifestState) (line : string) : manifestState :=
  if inMetadata st then
    if negb (HasPrefix line "  ")
    then emitManifestLine (closeMetadata a kind groupVersion st) line
    else collectMetadata st line
  else emitManifestLine st line.

Definition finishManifest (a : manifestAnnotator) (kind groupVersion : string)
    (st : manifestState) : Buffer * bool :=
  if negb (metadataProcessed st) && (0 <? List.length (metadataLines st))%nat
  then processMetadata a (metadataLines st) kind groupVersion (dOut st)
  else (dOut st, dChanged st).

Definition processManifest (a : manifestAnnotator) (ls : list string)
    (out : Buffer) : Buffer * bool :=
  let (kind, groupVersion) := scanHeader ls in
  finishManifest a kind groupVersion
    (fold_left (manifestStep a kind groupVersion) ls
       {| metadataLines := []; inMetadata := false;
          metadataProcessed := false; dChanged := false; dOut := out |}).

(** ** The file: [readLines] and [Run] *)

(** The errors [Run] returns: the file cannot be opened, a line is too long
    for the scanner, the file cannot be opened for writing, the device has
    no room for the data. *)
Inductive error := ErrNotExist | ErrTooLong | ErrPermission | ErrNoSpace.

(** The files [Run] can see.  A path has a content or cannot be opened;
    [readOnly] tells the paths that cannot be opened for writing, and [room]
    how many bytes the device takes when the file at a path is rewritten
    ([None]: as many as are written). *)
Record FileSystem := {
  contents :> string -> option string;
  readOnly : string -> bool;
  room : string -> option nat
}.

(** The file system with [data] as the content of [path]. *)
Definition store (fs : FileSystem) (path data : string) : FileSystem :=
  {| contents := fun p => if String.eqb p path then Some data else fs p;
     readOnly := readOnly fs;
     room := room fs |}.

(** [ioutil.WriteFile(path, data, 0644)]: the file is opened for writing and
    truncated, then the data is written.  When it cannot be opened the file
    is left as it is; when the device runs out of room the file holds the
    bytes that were written. *)
Definition WriteFile (fs : FileSystem) (path data : string)
    : option error * FileSystem :=
  if readOnly fs path then (Some ErrPermission, fs)
  else
    match room fs path with
    | Some n =>
        if (n <? String.length data)%nat
        then (Some ErrNoSpace, store fs path (substring 0 n data))
        else (None, store fs path data)
    | None => (None, store fs path data)
    end.

(** [bufio.ScanLines] cuts the content at every ["\n"]; what follows the last
    one is a line of its own unless it is empty. *)
Fixpoint scanLines (s : string) : list string :=
  match s with
  | EmptyString => []
  | String c r =>
      if Ascii.eqb c "010"%char then EmptyString :: scanLines r
      else match scanLines r with
           | [] => [String c EmptyString]
           | l :: ls => String c l :: ls
           end
  end.

(** [dropCR]: one trailing ['\r'] is not part of the line. *)
Fixpoint dropCR (s : string) : string :=
  match s with
  | EmptyString => s
  | String c EmptyString => if Ascii.eqb c "013"%char then EmptyString else s
  | String c r => String c (dropCR r)
  end.

(** [bufio.MaxScanTokenSize]: the scanner gives up with [ErrTooLong] when its
    buffer of that many bytes is full and holds no line end. *)
Definition MaxScanTokenSize : N := 65536%N.

Definition tooLong (line : string) : bool :=
  (MaxScanTokenSize <=? N.of_nat (String.length line))%N.

Definition readLines (fs : FileSystem) (path : string)
    : list string + error :=
  match fs path with
  | None => inr ErrNotExist
  | Some content =>
      let raw := scanLines content in
      if existsb tooLong raw then inr ErrTooLong else inl (map dropCR raw)
  end.

(** The loop of [Run] over [currentManifest] and [output]. *)
Definition runStep (a : manifestAnnotator) (st : list string * Buffer)
    (line : string) : list string * Buffer :=
  if HasPrefix line "---" then
    ([], WriteString (fst (processManifest a (fst st) (snd st))) (line ++ nl))
  else ((fst st ++ [line])%list, snd st).

(** The buffer [Run] has assembled, and the flag it tests, when it reaches
    [if changed]. *)
Definition assemble (a : manifestAnnotator) (ls : list string)
    : Buffer * bool :=
  let st := fold_left (runStep a) ls ([], EmptyString) in
  processManifest a (fst st) (snd st).

Definition Run (a : manifestAnnotator) (fs : FileSystem)
    : option error * FileSystem :=
  match readLines fs (FileName a) with
  | inr err => (Some err, fs)
  | inl ls =>
      let (output, changed) := assemble a ls in
      if changed then WriteFile fs (FileName a) output
      else (None, fs)
  end.

(** ** The value-reconciling merger (second half of [annotator.go]) *)

Module Reconciling.
Section Merger.
(** [strconv.Quote], the [%q] verb of [fmt]: left abstract, no statement
    below depends on how a value is quoted. *)
Variable quote : string -> string.

(** [strings.Trim] with the double quote as cutset: the quote characters
    at both ends removed. *)
Fixpoint trimLeftQuotes (s : string) : string :=
  match s with
  | EmptyString => s
  | String c r => if Ascii.eqb c "034"%char then trimLeftQuotes r else s
  end.

Definition trimQuotes (s : string) : string :=
  revString EmptyString
    (trimLeftQuotes (revString EmptyString (trimLeftQuotes s))).

(** The line [fmt.Fprintf] writes with the verbs [%s] and [%q] for
    [a.Annotation] and [a.Value]. *)
Definition entryLine (a : manifestAnnotator) : string :=
  "    " ++ Annotation a ++ ": " ++ quote (Value a) ++ nl.

(** The variables of the loop: [changed], [found] and the buffer.  The
    message the loop prints on standard output is not modelled. *)
Record mergeState := { changed : bool; found : bool; rOut : Buffer }.

Definition mergeStep (a : manifestAnnotator) (st : mergeState)
    (line : string) : mergeState :=
  match SplitN2 line with
  | [p0; p1] =>
      let k := TrimSpace p0 in
      let v := trimQuotes (TrimSpace p1) in
      if String.eqb k (Annotation a) then
        if negb (String.eqb v (Value a)) then
          {| changed := true; found := true;
             rOut := WriteString (rOut st) (entryLine a) |}
        else
          {| changed := changed st; found := true;
             rOut := WriteString (rOut st) (line ++ nl) |}
      else
        {| changed := changed st; found := found st;
           rOut := WriteString (rOut st) (line ++ nl) |}
  | _ =>
      {| changed := changed st; found := found st;
         rOut := WriteString (rOut st) (line ++ nl) |}
  end.

Definition processAnnotations (a : manifestAnnotator) (ls : list string)
    (out : Buffer) : Buffer * bool :=
  let st := fold_left (mergeStep a) ls
              {| changed := false; found := false; rOut := out |} in
  if negb (found st)
  then (WriteString (rOut st) (entryLine a), true)
  else (rOut st, changed st).
End Merger.
End Reconciling.

(** ** The line-sorting merger ([annotationSorter]) *)

Module LineSorter.
Section Merger.
Variable quote : string -> string.

(** [annotationSorter.Less] on the two lines it indexes.  [partsI[1]] and
    [partsJ[1]] are read only when the texts before the colon are equal;
    the index is out of range, and the program panics ([None]), when one
    of the two lines holds no colon. *)
Definition Less (x y : string) : option bool :=
  let partsI := SplitN2 x in
  let partsJ := SplitN2 y in
  match nth_error partsI 0, nth_error partsJ 0 with
  | Some i0, Some j0 =>
      if String.eqb i0 j0 then
        match nth_error partsI 1, nth_error partsJ 1 with
        | Some i1, Some j1 => Some (String.ltb i1 j1)
        | _, _ => None
        end
      else Some (String.ltb i0 j0)
  | _, _ => None
  end.

(** [insertionSort] with a comparison that can panic. *)
Fixpoint sinkLeft (x : string) (revSorted : list string)
    : option (list string) :=
  match revSorted with
  | [] => Some [x]
  | y :: ys =>
      match Less x y with
      | None => None
      | Some true =>
          match sinkLeft x ys with
          | Some r => Some (y :: r)
          | None => None
          end
      | Some false => Some (x :: revSorted)
      end
  end.

(** [sortAnnotations]: [sort.Sort] on the lines, modelled as for [Sort]
    above.  Which pairs a longer slice has compared, and so whether the
    comparison panics on it, depends on the algorithm [sort.Sort] picks. *)
Definition sortAnnotations (ls : list string) : option (list string) :=
  match
    fold_left (fun acc x =>
                 match acc with
                 | Some sorted => sinkLeft x sorted
                 | None => None
                 end) ls (Some [])
  with
  | Some r => Some (rev r)
  | None => None
  end.

(** [includesAnnotation]: every line counts, with or without colon. *)
Definition includesAnnotation (ls : list string) (k : string) : bool :=
  existsb (fun line =>
             String.eqb (TrimSpace (nth 0 (SplitN2 line) EmptyString)) k) ls.

(** The slice the caller passes is sorted in place when it has spare
    capacity; that shows in later calls of the caller, not in what this
    call writes and returns, which is what is modelled here. *)
Definition processAnnotations (a : manifestAnnotator) (ls : list string)
    (out : Buffer) : option (Buffer * bool) :=
  let shouldSkip := includesAnnotation ls (SkipAnnotation a) in
  if negb shouldSkip && negb (includesAnnotation ls (Annotation a)) then
    match
      sortAnnotations
        (ls ++ [("    " ++ Annotation a ++ ": " ++ quote (Value a))%string])%list
    with
    | Some sorted => Some (writeLines out sorted, true)
    | None => None
    end
  else Some (writeLines out ls, false).
End Merger.
End LineSorter.

(** * The vocabulary of the statements *)

(** ** Text *)

(** Every line followed by ["\n"]: what [writeLines] adds to a buffer. *)
Fixpoint joinLines (ls : list string) : string :=
  match ls with
  | [] => EmptyString
  | l :: r => l ++ nl ++ joinLines r
  end.

(** A state of the loops with [p] put in front of its buffer. *)
Definition prependMeta (p : Buffer) (st : metaState) : metaState :=
  {| annotationLines := annotationLines st;
     inAnnotations := inAnnotations st;
     annotationsProcessed := annotationsProcessed st;
     mChanged := mChanged st;
     mOut := p ++ mOut st |}.

Definition prependDoc (p : Buffer) (st : manifestState) : manifestState :=
  {| metadataLines := metadataLines st;
     inMetadata := inMetadata st;
     metadataProcessed := metadataProcessed st;
     dChanged := dChanged st;
     dOut := p ++ dOut st |}.

(** ** The shape of a document *)

(** The tests of the loop of [processManifest]. *)
Definition isMetadataLine (l : string) : bool := HasPrefix l "metadata:".

Definition noMetadata (l : string) : bool := negb (isMetadataLine l).

Definition indented2 (l : string) : bool := HasPrefix l "  ".

(** The lines before the first [metadata:] line, and the lines from it on. *)
Fixpoint beforeMetadata (doc : list string) : list string :=
  match doc with
  | [] => []
  | l :: r => if isMetadataLine l then [] else l :: beforeMetadata r
  end.

Fixpoint fromMetadata (doc : list string) : list string :=
  match doc with
  | [] => []
  | l :: r => if isMetadataLine l then doc else fromMetadata r
  end.

(** The longest run of indented lines at the head, and what follows it. *)
Fixpoint takeIndented (ls : list string) : list string :=
  match ls with
  | [] => []
  | l :: r => if indented2 l then l :: takeIndented r else []
  end.

Fixpoint dropIndented (ls : list string) : list string :=
  match ls with
  | [] => []
  | l :: r => if indented2 l then dropIndented r else ls
  end.

(** The metadata block of a document: the indented lines that follow its
    first [metadata:] line; and the lines after that block. *)
Definition metadataBlock (doc : list string) : list string :=
  takeIndented (tl (fromMetadata doc)).

Definition afterBlock (doc : list string) : list string :=
  dropIndented (tl (fromMetadata doc)).

(** A document with at most one [metadata:] line. *)
Definition singleBlock (doc : list string) : bool :=
  forallb noMetadata (afterBlock doc).

(** Some non-empty filter differs from the value extracted from the
    document: [skipProcessing] on the [kind] and [groupVersion] of its
    header and the [name] and [namespace] of its metadata block. *)
Definition filtersDiffer (a : manifestAnnotator) (doc : list string) : bool :=
  skipProcessing a (fst (scanHeader doc)) (snd (scanHeader doc))
    (fst (scanIdent (metadataBlock doc))) (snd (scanIdent (metadataBlock doc))).

(** The test of the loop of [processMetadata]. *)
Definition noAnnotations (l : string) : bool :=
  negb (HasPrefix l "  annotations:").

(** The test of the loop of [Run]. *)
Definition isSeparator (l : string) : bool := HasPrefix l "---".

Definition noSeparator (l : string) : bool := negb (isSeparator l).

(** ** Annotation blocks *)

(** Entries in key order. *)
Definition keyLe (x y : annotation) : Prop :=
  String.leb (key x) (key y) = true.

(** The two tests of the loop of [parseAnnotations]. *)
Definition isContinuation (l : string) : bool := HasPrefix l "      ".

Definition hasColon (l : string) : bool :=
  match cutColon l with Some _ => true | None => false end.

(** The lines of a block that end up in an entry.  [opened] tells whether
    an entry has been started. *)
Fixpoint ownedLines (opened : bool) (ls : list string) : list string :=
  match ls with
  | [] => []
  | l :: r =>
      if isContinuation l then
        if opened then l :: ownedLines opened r else ownedLines opened r
      else if hasColon l then l :: ownedLines true r
      else ownedLines opened r
  end.

Definition opened (st : parseState) : bool :=
  match fst st with Some _ => true | None => false end.

(** A block all of whose lines belong to an entry: it starts with a line
    that opens one, and every line opens or continues one. *)
Definition wholeBlock (ls : list string) : bool :=
  forallb (fun l => isContinuation l || hasColon l) ls
  && match ls with
     | [] => true
     | l :: _ => negb (isContinuation l)
     end.

(** The text before the first colon of a line, and the text after it if
    there is a colon: what [annotationSorter.Less] compares. *)
Definition beforeColon (l : string) : string :=
  match cutColon l with Some (b, _) => b | None => l end.

Definition afterColon (l : string) : option string :=
  match cutColon l with Some (_, r) => Some r | None => None end.

(** [x] may stand before [y]: the comparison of [y] with [x] answers no. *)
Definition lineLe (x y : string) : Prop := LineSorter.Less y x = Some false.

(** ** Files *)

Fixpoint noNewline (s : string) : bool :=
  match s with
  | EmptyString => true
  | String c r => negb (Ascii.eqb c "010"%char) && noNewline r
  end.

(** A line [readLines] gives back as it was written. *)
Definition plainLine (l : string) : bool :=
  noNewline l && String.eqb (dropCR l) l && negb (tooLong l).

(** A file system with one file, which can be written without limit. *)
Definition oneFile (path content : string) : FileSystem :=
  {| contents := fun p => if String.eqb p path then Some content else None;
     readOnly := fun _ => false;
     room := fun _ => None |}.

(** The write of [data] to [path] meets no obstacle. *)
Definition canWrite (fs : FileSystem) (path data : string) : bool :=
  negb (readOnly fs path)
  && match room fs path with
     | Some n => (String.length data <=? n)%nat
     | None => true
     end.

(** ** The inputs of the examples *)

Definition dquote : string := String "034"%char EmptyString.


(** The annotator of the command line
    [manifest-annotator f.yaml team platform]. *)
Definition team : manifestAnnotator :=
  {| FileName := "f.yaml"; Annotation := "team"; SkipAnnotation := "";
     Value := "platform"; Kind := ""; GroupVersion := "";
     Name := ""; Namespace := "" |}.

(** The same with the filters [--kind ConfigMap --name foo]. *)
Definition teamOfFoo : manifestAnnotator :=
  {| FileName := "f.yaml"; Annotation := "team"; SkipAnnotation := "";
     Value := "platform"; Kind := "ConfigMap"; GroupVersion := "";
     Name := "foo"; Namespace := "" |}.

(** An annotator with the skip key [managed]. *)
Definition teamUnlessManaged : manifestAnnotator :=
  {| FileName := "f.yaml"; Annotation := "team"; SkipAnnotation := "managed";
     Value := "platform"; Kind := ""; GroupVersion := "";
     Name := ""; Namespace := "" |}.


(** ** Entries as the parser builds them *)

(** An entry made of a first line that opens it, with the key taken from
    the text before the colon, and of continuation lines. *)
Definition wfEntry (e : annotation) : bool :=
  match lines e with
  | [] => false
  | h :: conts =>
      negb (isContinuation h)
      && match cutColon h with
         | Some (b, _) => String.eqb (key e) (TrimSpace b)
         | None => false
         end
      && forallb isContinuation conts
  end.

(** ** The shape of a metadata block *)

(** The test of the loop of [processMetadata] on the lines under
    [  annotations:]. *)
Definition indented4 (l : string) : bool := HasPrefix l "    ".

(** What may follow an annotation block: nothing, or a line that is not
    indented by four spaces. *)
Definition closes4 (post : list string) : bool :=
  match post with
  | [] => true
  | p :: _ => negb (indented4 p)
  end.









(** ** The document with a synthesized annotation block *)

(** The line [newAnnotation] makes for the entry to add. *)
Definition newLine (a : manifestAnnotator) : string :=
  "    " ++ Annotation a ++ ": " ++ Value a.

(** The lines of [doc], whose first [metadata:] line is [m], with the line
    [  annotations:] and the new entry after its metadata block. *)
Definition withAnnotations (a : manifestAnnotator) (doc : list string)
    (m : string) : list string :=
  (beforeMetadata doc
   ++ m :: metadataBlock doc ++ ["  annotations:"; newLine a]
   ++ afterBlock doc)%list.

(** ** The documents of a file *)






(** What [processManifest] writes for a document. *)
Definition written (a : manifestAnnotator) (d : list string) : string :=
  fst (processManifest a d EmptyString).




(** ** Contents and header lines *)

(** A content that is empty or ends in a line feed. *)
Fixpoint terminated (s : string) : bool :=
  match s with
  | EmptyString => true
  | String c EmptyString => Ascii.eqb c "010"%char
  | String _ r => terminated r
  end.

(** A text without carriage return. *)
Fixpoint noCR (s : string) : bool :=
  match s with
  | EmptyString => true
  | String c r => negb (Ascii.eqb c "013"%char) && noCR r
  end.

(** The last line that begins with [pre], and the trimmed text that follows
    [pre] on it (empty when there is no such line). *)
Definition lastWith (pre : string) (ls : list string) : option string :=
  fold_left (fun acc l => if HasPrefix l pre then Some l else acc) ls None.

Definition valueAfter (pre : string) (found : option string) : string :=
  match found with
  | Some l => TrimSpace (TrimPrefix l pre)
  | None => EmptyString
  end.

(** ** Lines as the other two mergers see them *)

(** The line both mergers make for the entry to add, its value quoted. *)
Definition quotedLine (quote : string -> string) (a : manifestAnnotator)
    : string :=
  "    " ++ Annotation a ++ ": " ++ quote (Value a).

(** A line whose trimmed text before the colon is the target key; and such
    a line whose value, trimmed and without quotes at its ends, is not the
    target value. *)
Definition holdsKey (a : manifestAnnotator) (l : string) : bool :=
  match cutColon l with
  | Some (b, _) => String.eqb (TrimSpace b) (Annotation a)
  | None => false
  end.

Definition stale (a : manifestAnnotator) (l : string) : bool :=
  match cutColon l with
  | Some (b, r) =>
      String.eqb (TrimSpace b) (Annotation a)
      && negb (String.eqb (Reconciling.trimQuotes (TrimSpace r)) (Value a))
  | None => false
  end.

(** The lines the value-reconciling merger writes for a block. *)
Definition reconciled (quote : string -> string) (a : manifestAnnotator)
    (ls : list string) : list string :=
  (map (fun l => if stale a l then quotedLine quote a else l) ls
   ++ (if existsb (holdsKey a) ls then [] else [quotedLine quote a]))%list.

(** * Properties *)

(** ** The text of a sequence of lines *)

Lemma append_assoc (a b c : string) : (a ++ b) ++ c = a ++ (b ++ c).
Proof. induction a as [|x a IH]; cbn; [reflexivity | now rewrite IH]. Qed.

Lemma append_nil_l (a : string) : EmptyString ++ a = a.
Proof. reflexivity. Qed.

Lemma append_nil_r (a : string) : a ++ EmptyString = a.
Proof. induction a as [|x a IH]; cbn; [reflexivity | now rewrite IH]. Qed.

Lemma append_inv_head (a b c : string) : a ++ b = a ++ c -> b = c.
Proof.
  induction a as [|x a IH]; cbn; intros H; [exact H|].
  injection H as H. now apply IH.
Qed.

Lemma joinLines_app (l1 l2 : list string) :
  joinLines (l1 ++ l2)%list = joinLines l1 ++ joinLines l2.
Proof.
  induction l1 as [|x l1 IH]; cbn [joinLines app]; [reflexivity|].
  now rewrite IH, !append_assoc.
Qed.

Lemma writeLines_spec (ls : list string) (out : Buffer) :
  writeLines out ls = out ++ joinLines ls.
Proof.
  unfold writeLines. revert out.
  induction ls as [|l ls IH]; intros out; cbn [fold_left joinLines].
  - now rewrite append_nil_r.
  - rewrite IH. unfold WriteString. now rewrite !append_assoc.
Qed.

Lemma Write_spec (anns : annotations) (out : Buffer) :
  Write anns out = out ++ joinLines (flat_map lines anns).
Proof.
  unfold Write. revert out.
  induction anns as [|x anns IH]; intros out; cbn [fold_left flat_map].
  - now rewrite append_nil_r.
  - now rewrite IH, writeLines_spec, joinLines_app, append_assoc.
Qed.

(** ** Every stage only appends to the buffer it is given *)

Lemma processAnnotations_prepend a ls (p out : Buffer) :
  processAnnotations a ls (p ++ out)
  = (p ++ fst (processAnnotations a ls out), snd (processAnnotations a ls out)).
Proof.
  unfold processAnnotations.
  destruct (negb _ && negb _); cbn [fst snd];
    now rewrite !Write_spec, append_assoc.
Qed.

Lemma metadataStep_prepend a p st line :
  metadataStep a (prependMeta p st) line = prependMeta p (metadataStep a st line).
Proof.
  destruct st as [al [|] ap ch o];
    unfold metadataStep, prependMeta; cbn [inAnnotations];
    [destruct (negb _)| ];
    unfold emitMetadataLine, closeAnnotations, collectAnnotation, WriteString;
    cbn [annotationLines inAnnotations annotationsProcessed mChanged mOut];
    rewrite ?processAnnotations_prepend; cbn [fst snd];
    now rewrite ?append_assoc.
Qed.

Lemma metadataLoop_prepend a p ls st :
  fold_left (metadataStep a) ls (prependMeta p st)
  = prependMeta p (fold_left (metadataStep a) ls st).
Proof.
  revert st. induction ls as [|l ls IH]; intros st; cbn [fold_left].
  - reflexivity.
  - now rewrite metadataStep_prepend, IH.
Qed.

Lemma finishMetadata_prepend a p st :
  finishMetadata a (prependMeta p st)
  = (p ++ fst (finishMetadata a st), snd (finishMetadata a st)).
Proof.
  unfold finishMetadata, prependMeta;
    cbn [annotationLines inAnnotations annotationsProcessed mChanged mOut].
  destruct (List.length (annotationLines st) =? 0)%nat;
    cbn [annotationLines inAnnotations annotationsProcessed mChanged mOut];
    destruct (annotationsProcessed st); cbn [negb fst snd];
    unfold WriteString; rewrite ?append_assoc;
    rewrite ?processAnnotations_prepend; reflexivity.
Qed.

Lemma processMetadata_prepend a ls kind gv (p out : Buffer) :
  processMetadata a ls kind gv (p ++ out)
  = (p ++ fst (processMetadata a ls kind gv out),
     snd (processMetadata a ls kind gv out)).
Proof.
  unfold processMetadata. destruct (scanIdent ls) as [name namespace].
  destruct (skipProcessing _ _ _ _ _); cbn [fst snd].
  - now rewrite !writeLines_spec, append_assoc.
  - set (st0 := {| annotationLines := []; inAnnotations := false;
                   annotationsProcessed := false; mChanged := false;
                   mOut := out |}).
    change {| annotationLines := []; inAnnotations := false;
              annotationsProcessed := false; mChanged := false;
              mOut := p ++ out |} with (prependMeta p st0).
    now rewrite metadataLoop_prepend, finishMetadata_prepend.
Qed.

Lemma processMetadata_out a ls kind gv (out : Buffer) :
  processMetadata a ls kind gv out
  = (out ++ fst (processMetadata a ls kind gv EmptyString),
     snd (processMetadata a ls kind gv EmptyString)).
Proof.
  rewrite <- processMetadata_prepend. now rewrite append_nil_r.
Qed.

Lemma manifestStep_prepend a kind gv p st line :
  manifestStep a kind gv (prependDoc p st) line
  = prependDoc p (manifestStep a kind gv st line).
Proof.
  destruct st as [ml [|] mp ch o];
    unfold manifestStep, prependDoc; cbn [inMetadata];
    [destruct (negb _)| ];
    unfold emitManifestLine, closeMetadata, collectMetadata, WriteString;
    cbn [metadataLines inMetadata metadataProcessed dChanged dOut];
    rewrite ?processMetadata_prepend; cbn [fst snd];
    now rewrite ?append_assoc.
Qed.

Lemma manifestLoop_prepend a kind gv p ls st :
  fold_left (manifestStep a kind gv) ls (prependDoc p st)
  = prependDoc p (fold_left (manifestStep a kind gv) ls st).
Proof.
  revert st. induction ls as [|l ls IH]; intros st; cbn [fold_left].
  - reflexivity.
  - now rewrite manifestStep_prepend, IH.
Qed.

Lemma processManifest_prepend a ls (p out : Buffer) :
  processManifest a ls (p ++ out)
  = (p ++ fst (processManifest a ls out), snd (processManifest a ls out)).
Proof.
  unfold processManifest. destruct (scanHeader ls) as [kind gv].
  set (st0 := {| metadataLines := []; inMetadata := false;
                 metadataProcessed := false; dChanged := false;
                 dOut := out |}).
  change {| metadataLines := []; inMetadata := false;
            metadataProcessed := false; dChanged := false;
            dOut := p ++ out |} with (prependDoc p st0).
  rewrite manifestLoop_prepend.
  unfold finishManifest, prependDoc;
    cbn [metadataLines inMetadata metadataProcessed dChanged dOut].
  destruct (negb _ && _); cbn [fst snd];
    now rewrite ?processMetadata_prepend.
Qed.

Lemma processManifest_out a ls (out : Buffer) :
  processManifest a ls out
  = (out ++ fst (processManifest a ls EmptyString),
     snd (processManifest a ls EmptyString)).
Proof.
  rewrite <- processManifest_prepend. now rewrite append_nil_r.
Qed.

(** ** The shape of a document *)

Lemma doc_split (doc : list string) :
  doc = (beforeMetadata doc ++ fromMetadata doc)%list.
Proof.
  induction doc as [|l r IH]; cbn [beforeMetadata fromMetadata].
  - reflexivity.
  - destruct (isMetadataLine l); [reflexivity|].
    cbn [app]. now rewrite <- IH.
Qed.

Lemma beforeMetadata_noMetadata (doc : list string) :
  forallb noMetadata (beforeMetadata doc) = true.
Proof.
  induction doc as [|l r IH]; cbn [beforeMetadata]; [reflexivity|].
  destruct (isMetadataLine l) eqn:E; [reflexivity|].
  cbn [forallb]. unfold noMetadata at 1. now rewrite E, IH.
Qed.

Lemma fromMetadata_head (doc : list string) m r :
  fromMetadata doc = m :: r -> isMetadataLine m = true.
Proof.
  induction doc as [|l d IH]; cbn [fromMetadata]; [discriminate|].
  destruct (isMetadataLine l) eqn:E; [|exact IH].
  intros H. injection H as -> _. exact E.
Qed.

Lemma indented_split (ls : list string) :
  ls = (takeIndented ls ++ dropIndented ls)%list.
Proof.
  induction ls as [|l r IH]; cbn [takeIndented dropIndented].
  - reflexivity.
  - destruct (indented2 l); [|reflexivity]. cbn [app]. now rewrite <- IH.
Qed.

Lemma takeIndented_indented (ls : list string) :
  forallb indented2 (takeIndented ls) = true.
Proof.
  induction ls as [|l r IH]; cbn [takeIndented]; [reflexivity|].
  destruct (indented2 l) eqn:E; [|reflexivity].
  cbn [forallb]. now rewrite E, IH.
Qed.

Lemma dropIndented_head (ls : list string) p ps :
  dropIndented ls = p :: ps -> indented2 p = false.
Proof.
  induction ls as [|l r IH]; cbn [dropIndented]; [discriminate|].
  destruct (indented2 l) eqn:E; [exact IH|].
  intros H. injection H as -> _. exact E.
Qed.

(** ** The loop of [processManifest], piece by piece *)

Section ManifestLoop.
Variable a : manifestAnnotator.
Variables kind gv : string.

Let loop := fold_left (manifestStep a kind gv).

(** Outside a metadata block, lines that do not open one are copied. *)
Lemma manifestLoop_outside ls ml mp ch out :
  forallb noMetadata ls = true ->
  loop ls {| metadataLines := ml; inMetadata := false;
             metadataProcessed := mp; dChanged := ch; dOut := out |}
  = {| metadataLines := ml; inMetadata := false;
       metadataProcessed := mp; dChanged := ch;
       dOut := out ++ joinLines ls |}.
Proof.
  unfold loop. revert out.
  induction ls as [|l ls IH]; intros out H; cbn [fold_left joinLines].
  - now rewrite append_nil_r.
  - cbn [forallb] in H. apply andb_true_iff in H as [Hl Hls].
    unfold noMetadata, isMetadataLine in Hl. apply negb_true_iff in Hl.
    unfold manifestStep at 2; cbn [inMetadata].
    unfold emitManifestLine; cbn [metadataLines inMetadata
      metadataProcessed dChanged dOut].
    rewrite Hl, (IH _ Hls). unfold WriteString.
    now rewrite !append_assoc.
Qed.

(** Inside the block, indented lines are collected and not written. *)
Lemma manifestLoop_inside ls ml mp ch out :
  forallb indented2 ls = true ->
  loop ls {| metadataLines := ml; inMetadata := true;
             metadataProcessed := mp; dChanged := ch; dOut := out |}
  = {| metadataLines := (ml ++ ls)%list; inMetadata := true;
       metadataProcessed := mp; dChanged := ch; dOut := out |}.
Proof.
  unfold loop. revert ml.
  induction ls as [|l ls IH]; intros ml H; cbn [fold_left].
  - now rewrite app_nil_r.
  - cbn [forallb] in H. apply andb_true_iff in H as [Hl Hls].
    unfold indented2 in Hl.
    unfold manifestStep at 2; cbn [inMetadata]. rewrite Hl; cbn [negb].
    unfold collectMetadata; cbn [metadataLines inMetadata
      metadataProcessed dChanged dOut].
    rewrite (IH _ Hls). now rewrite <- app_assoc.
Qed.

(** The line that opens the block. *)
Lemma manifestStep_open m ml mp ch out :
  isMetadataLine m = true ->
  manifestStep a kind gv
    {| metadataLines := ml; inMetadata := false;
       metadataProcessed := mp; dChanged := ch; dOut := out |} m
  = {| metadataLines := ml; inMetadata := true;
       metadataProcessed := mp; dChanged := ch;
       dOut := out ++ m ++ nl |}.
Proof.
  intros Hm. unfold isMetadataLine in Hm.
  unfold manifestStep; cbn [inMetadata].
  unfold emitManifestLine; cbn [metadataLines inMetadata
    metadataProcessed dChanged dOut].
  now rewrite Hm.
Qed.

(** The line that closes the block, when it opens no new one. *)
Lemma manifestStep_close p ml mp ch out :
  indented2 p = false -> noMetadata p = true ->
  manifestStep a kind gv
    {| metadataLines := ml; inMetadata := true;
       metadataProcessed := mp; dChanged := ch; dOut := out |} p
  = {| metadataLines := ml; inMetadata := false;
       metadataProcessed := true;
       dChanged := snd (processMetadata a ml kind gv EmptyString);
       dOut := out ++ fst (processMetadata a ml kind gv EmptyString)
               ++ p ++ nl |}.
Proof.
  intros Hp Hn. unfold indented2 in Hp.
  unfold noMetadata, isMetadataLine in Hn. apply negb_true_iff in Hn.
  unfold manifestStep; cbn [inMetadata]. rewrite Hp; cbn [negb].
  unfold emitManifestLine, closeMetadata; cbn [metadataLines inMetadata
    metadataProcessed dChanged dOut].
  rewrite Hn, (processMetadata_out a ml kind gv out); cbn [fst snd].
  unfold WriteString. now rewrite !append_assoc.
Qed.
End ManifestLoop.

(** A document without [metadata:] line is copied line by line. *)
Lemma processManifest_noMetadata a ls out :
  forallb noMetadata ls = true ->
  processManifest a ls out = (out ++ joinLines ls, false).
Proof.
  intros H. unfold processManifest.
  destruct (scanHeader ls) as [kind gv].
  rewrite (manifestLoop_outside a kind gv ls [] false false out H).
  reflexivity.
Qed.

(** A document with one metadata block: the lines around the block are
    copied, the block goes through [processMetadata]; a block without lines
    that ends the document is not processed at all. *)
Lemma processManifest_singleBlock a doc out m rest :
  singleBlock doc = true ->
  fromMetadata doc = m :: rest ->
  processManifest a doc out =
    match metadataBlock doc, afterBlock doc with
    | [], [] => (out ++ joinLines doc, false)
    | body, post =>
        let r := processMetadata a body (fst (scanHeader doc))
                   (snd (scanHeader doc)) EmptyString in
        (out ++ joinLines (beforeMetadata doc) ++ m ++ nl ++ fst r
             ++ joinLines post, snd r)
    end.
Proof.
  intros Hs Hm. unfold processManifest.
  destruct (scanHeader doc) as [kind gv]; cbn [fst snd].
  unfold singleBlock in Hs. unfold metadataBlock, afterBlock in *.
  rewrite (doc_split doc) at 1. rewrite Hm in *. cbn [tl] in *.
  rewrite (indented_split rest) at 1.
  rewrite fold_left_app.
  rewrite (manifestLoop_outside a kind gv _ [] false false out
             (beforeMetadata_noMetadata doc)).
  cbn [fold_left].
  rewrite (manifestStep_open a kind gv m _ _ _ _ (fromMetadata_head _ _ _ Hm)).
  rewrite fold_left_app.
  rewrite (manifestLoop_inside a kind gv _ [] false false _
             (takeIndented_indented rest)).
  cbn [app].
  assert (Hdoc : joinLines doc
                 = joinLines (beforeMetadata doc) ++ m ++ nl
                   ++ joinLines (takeIndented rest)
                   ++ joinLines (dropIndented rest)).
  { rewrite (doc_split doc) at 1. rewrite Hm.
    rewrite joinLines_app. cbn [joinLines].
    rewrite (indented_split rest) at 1. now rewrite joinLines_app. }
  destruct (dropIndented rest) as [|p ps] eqn:Hpost.
  - cbn [fold_left]. unfold finishManifest;
      cbn [metadataLines inMetadata metadataProcessed dChanged dOut negb andb].
    destruct (takeIndented rest) as [|b bs] eqn:Hbody.
    + cbn [List.length Nat.ltb Nat.leb]. rewrite Hdoc. cbn [joinLines].
      now rewrite !append_assoc.
    + cbn [List.length Nat.ltb Nat.leb].
      rewrite (processMetadata_out a (b :: bs) kind gv _); cbn [fst snd].
      cbn [joinLines]. now rewrite !append_nil_r, !append_assoc.
  - cbn [forallb] in Hs. apply andb_true_iff in Hs as [Hp Hps].
    cbn [fold_left].
    rewrite (manifestStep_close a kind gv p _ _ _ _
               (dropIndented_head _ _ _ Hpost) Hp).
    rewrite (manifestLoop_outside a kind gv ps _ _ _ _ Hps).
    unfold finishManifest;
      cbn [metadataLines inMetadata metadataProcessed dChanged dOut negb andb].
    cbn [joinLines].
    destruct (takeIndented rest); now rewrite !append_assoc.
Qed.

(** ** [processMetadata]: the filter and the synthesized block *)

Lemma processMetadata_skip a ls kind gv out :
  skipProcessing a kind gv (fst (scanIdent ls)) (snd (scanIdent ls)) = true ->
  processMetadata a ls kind gv out = (out ++ joinLines ls, false).
Proof.
  intros H. unfold processMetadata.
  destruct (scanIdent ls) as [name namespace]; cbn [fst snd] in H.
  now rewrite H, writeLines_spec.
Qed.

Lemma processMetadata_changed_match a ls kind gv out :
  snd (processMetadata a ls kind gv out) = true ->
  skipProcessing a kind gv (fst (scanIdent ls)) (snd (scanIdent ls)) = false.
Proof.
  intros H.
  destruct (skipProcessing a kind gv _ _) eqn:E; [|reflexivity].
  rewrite (processMetadata_skip _ _ _ _ _ E) in H. discriminate H.
Qed.

(** Outside an annotation block, lines that do not open one are copied. *)
Lemma metadataLoop_outside a ls al ap ch out :
  forallb noAnnotations ls = true ->
  fold_left (metadataStep a) ls
    {| annotationLines := al; inAnnotations := false;
       annotationsProcessed := ap; mChanged := ch; mOut := out |}
  = {| annotationLines := al; inAnnotations := false;
       annotationsProcessed := ap; mChanged := ch;
       mOut := out ++ joinLines ls |}.
Proof.
  revert out. induction ls as [|l ls IH]; intros out H;
    cbn [fold_left joinLines].
  - now rewrite append_nil_r.
  - cbn [forallb] in H. apply andb_true_iff in H as [Hl Hls].
    unfold noAnnotations in Hl. apply negb_true_iff in Hl.
    unfold metadataStep at 2; cbn [inAnnotations].
    unfold emitMetadataLine; cbn [annotationLines inAnnotations
      annotationsProcessed mChanged mOut].
    rewrite Hl, (IH _ Hls). unfold WriteString.
    now rewrite !append_assoc.
Qed.

Lemma processAnnotations_empty a out :
  processAnnotations a [] out
  = (out ++ "    " ++ Annotation a ++ ": " ++ Value a ++ nl, true).
Proof.
  unfold processAnnotations, parseAnnotations, flush, Add, newAnnotation,
    Sort, insertionSort, Write, writeLines, WriteString.
  cbn [fold_left fst snd Includes existsb negb andb app sinkLeft rev lines].
  now rewrite !append_assoc.
Qed.

(** A matching metadata block without [  annotations:] line: its lines are
    copied, then come the synthesized line and the new entry. *)
Lemma processMetadata_synthesize a ls kind gv out :
  skipProcessing a kind gv (fst (scanIdent ls)) (snd (scanIdent ls)) = false ->
  forallb noAnnotations ls = true ->
  processMetadata a ls kind gv out
  = (out ++ joinLines ls ++ "  annotations:" ++ nl
         ++ "    " ++ Annotation a ++ ": " ++ Value a ++ nl, true).
Proof.
  intros Hskip Hno. unfold processMetadata.
  destruct (scanIdent ls) as [name namespace]; cbn [fst snd] in Hskip.
  rewrite Hskip, (metadataLoop_outside a ls [] false false out Hno).
  unfold finishMetadata; cbn [annotationLines inAnnotations
    annotationsProcessed mChanged mOut List.length Nat.eqb negb].
  rewrite processAnnotations_empty. unfold WriteString.
  now rewrite !append_assoc.
Qed.

(** ** Documents the filters exclude *)


(** ** The loop of [Run] *)

Lemma runLoop_document a d cur out :
  forallb noSeparator d = true ->
  fold_left (runStep a) d (cur, out) = ((cur ++ d)%list, out).
Proof.
  revert cur. induction d as [|l d IH]; intros cur H; cbn [fold_left].
  - now rewrite app_nil_r.
  - cbn [forallb] in H. apply andb_true_iff in H as [Hl Hd].
    unfold noSeparator, isSeparator in Hl. apply negb_true_iff in Hl.
    unfold runStep at 2. rewrite Hl; cbn [fst snd].
    rewrite (IH _ Hd). now rewrite <- app_assoc.
Qed.


(** The flag [Run] tests is the flag of the document after the last
    separator, whatever the documents before it returned. *)
Lemma assemble_flag a before sep last :
  isSeparator sep = true ->
  forallb noSeparator last = true ->
  snd (assemble a (before ++ sep :: last)%list)
  = snd (processManifest a last EmptyString).
Proof.
  intros Hs Hl. unfold assemble. rewrite fold_left_app. cbn [fold_left].
  destruct (fold_left (runStep a) before ([], EmptyString)) as [cur out].
  unfold runStep at 2. unfold isSeparator in Hs. rewrite Hs.
  rewrite (runLoop_document a last [] _ Hl); cbn [fst snd app].
  now rewrite processManifest_out.
Qed.

Lemma Run_unchanged_last_document a fs before sep last :
  readLines fs (FileName a) = inl (before ++ sep :: last)%list ->
  isSeparator sep = true ->
  forallb noSeparator last = true ->
  snd (processManifest a last EmptyString) = false ->
  Run a fs = (None, fs).
Proof.
  intros Hr Hs Hl Hc. unfold Run. rewrite Hr.
  pose proof (assemble_flag a before sep last Hs Hl) as Hflag.
  destruct (assemble a (before ++ sep :: last)%list) as [output changed].
  cbn [snd] in Hflag. now rewrite Hflag, Hc.
Qed.

(** ** The order on keys *)

Lemma string_compare_trans_le (s1 s2 s3 : string) :
  String.compare s1 s2 <> Gt -> String.compare s2 s3 <> Gt ->
  String.compare s1 s3 <> Gt.
Proof.
  revert s2 s3.
  induction s1 as [|x s1 IH]; intros [|y s2] [|z s3]; cbn [String.compare];
    try congruence.
  unfold Ascii.compare.
  destruct (N.compare_spec (N_of_ascii x) (N_of_ascii y)) as [Hxy|Hxy|Hxy];
    destruct (N.compare_spec (N_of_ascii y) (N_of_ascii z)) as [Hyz|Hyz|Hyz];
    destruct (N.compare_spec (N_of_ascii x) (N_of_ascii z)) as [Hxz|Hxz|Hxz];
    try congruence; try lia.
  apply IH.
Qed.

Lemma string_leb_trans (s1 s2 s3 : string) :
  String.leb s1 s2 = true -> String.leb s2 s3 = true ->
  String.leb s1 s3 = true.
Proof.
  unfold String.leb. intros H12 H23.
  pose proof (string_compare_trans_le s1 s2 s3) as H.
  destruct (String.compare s1 s2), (String.compare s2 s3),
    (String.compare s1 s3); try reflexivity; try discriminate;
    exfalso; apply H; congruence.
Qed.

Lemma string_ltb_false_leb (s1 s2 : string) :
  String.ltb s1 s2 = false <-> String.leb s2 s1 = true.
Proof.
  unfold String.ltb, String.leb. rewrite (String.compare_antisym s2 s1).
  destruct (String.compare s1 s2); cbn; split; congruence.
Qed.

Lemma string_ltb_leb (s1 s2 : string) :
  String.ltb s1 s2 = true -> String.leb s1 s2 = true.
Proof.
  unfold String.ltb, String.leb.
  destruct (String.compare s1 s2); congruence.
Qed.

(** ** [insertionSort] returns a sorted permutation *)

Section InsertionSortCorrect.
Context {A : Type} (less : A -> A -> bool) (le : A -> A -> Prop).
Hypothesis le_trans : forall x y z, le x y -> le y z -> le x z.
Hypothesis less_le : forall x y, less x y = true -> le x y.
Hypothesis not_less_le : forall x y, less x y = false -> le y x.

(** The sorted part is kept reversed: it descends. *)
Let ge (x y : A) : Prop := le y x.

Lemma sinkLeft_perm x acc : Permutation (sinkLeft less x acc) (x :: acc).
Proof.
  induction acc as [|y ys IH]; cbn [sinkLeft]; [reflexivity|].
  destruct (less x y); [|reflexivity].
  rewrite IH. apply perm_swap.
Qed.

Lemma sinkLeft_sorted x acc :
  StronglySorted ge acc -> StronglySorted ge (sinkLeft less x acc).
Proof.
  induction acc as [|y ys IH]; intros Hs; cbn [sinkLeft].
  - repeat constructor.
  - apply StronglySorted_inv in Hs as [Hys Hy].
    destruct (less x y) eqn:E.
    + constructor; [now apply IH|].
      apply (Permutation_Forall (Permutation_sym (sinkLeft_perm x ys))).
      constructor; [exact (less_le _ _ E) | exact Hy].
    + pose proof (not_less_le _ _ E) as Hyx.
      constructor; [now constructor|].
      constructor; [exact Hyx|].
      eapply Forall_impl; [|exact Hy].
      intros q Hq. unfold ge in *. eapply le_trans; eassumption.
Qed.

Lemma sortLoop_perm l acc :
  Permutation (fold_left (fun acc x => sinkLeft less x acc) l acc)
              (rev l ++ acc)%list.
Proof.
  revert acc. induction l as [|x l IH]; intros acc; cbn [fold_left rev].
  - reflexivity.
  - rewrite IH, sinkLeft_perm, <- app_assoc. cbn [app].
    apply Permutation_app_head, Permutation_refl.
Qed.

Lemma sortLoop_sorted l acc :
  StronglySorted ge acc ->
  StronglySorted ge (fold_left (fun acc x => sinkLeft less x acc) l acc).
Proof.
  revert acc. induction l as [|x l IH]; intros acc H; cbn [fold_left].
  - exact H.
  - apply IH, sinkLeft_sorted, H.
Qed.

Lemma StronglySorted_snoc (R : A -> A -> Prop) l x :
  StronglySorted R l -> Forall (fun y => R y x) l ->
  StronglySorted R (l ++ [x])%list.
Proof.
  induction l as [|y l IH]; intros Hs Hf; cbn [app].
  - repeat constructor.
  - apply StronglySorted_inv in Hs as [Hl Hy].
    apply Forall_cons_iff in Hf as [Hyx Hf].
    constructor; [now apply IH|].
    apply Forall_app. split; [exact Hy | now constructor].
Qed.

Lemma StronglySorted_rev l :
  StronglySorted ge l -> StronglySorted le (rev l).
Proof.
  induction 1 as [|y l Hl IH Hy]; cbn [rev]; [constructor|].
  apply StronglySorted_snoc; [exact IH|].
  apply Forall_rev. exact Hy.
Qed.

Lemma insertionSort_perm l : Permutation (insertionSort less l) l.
Proof.
  unfold insertionSort.
  rewrite <- Permutation_rev, sortLoop_perm, app_nil_r.
  symmetry. apply Permutation_rev.
Qed.

Lemma insertionSort_sorted l : StronglySorted le (insertionSort less l).
Proof.
  unfold insertionSort. apply StronglySorted_rev, sortLoop_sorted.
  constructor.
Qed.
End InsertionSortCorrect.

Lemma Sort_perm (anns : annotations) : Permutation (Sort anns) anns.
Proof. apply insertionSort_perm. Qed.

Lemma Sort_sorted (anns : annotations) : StronglySorted keyLe (Sort anns).
Proof.
  apply insertionSort_sorted; unfold keyLe, Less.
  - intros x y z. apply string_leb_trans.
  - intros x y. apply string_ltb_leb.
  - intros x y. apply string_ltb_false_leb.
Qed.

(** ** What [parseAnnotations] keeps of a block *)

(** A line of fewer than six spaces of indentation without colon leaves the
    state of the parser as it is: it opens no entry and joins none. *)
Lemma parseStep_unparsable st l :
  isContinuation l = false -> hasColon l = false -> parseStep st l = st.
Proof.
  unfold isContinuation, hasColon, parseStep, SplitN2. intros -> H.
  destruct (cutColon l) as [[before after]|]; [discriminate H | reflexivity].
Qed.

Lemma parseAnnotations_unparsable pre l post :
  isContinuation l = false -> hasColon l = false ->
  parseAnnotations (pre ++ l :: post)%list = parseAnnotations (pre ++ post)%list.
Proof.
  intros Hc Hn. unfold parseAnnotations.
  rewrite !fold_left_app. cbn [fold_left].
  now rewrite (parseStep_unparsable _ l Hc Hn).
Qed.

Lemma flush_lines_some c res :
  flat_map lines (flush (Some c, res)) = (flat_map lines res ++ lines c)%list.
Proof.
  unfold flush; cbn [fst snd]. rewrite flat_map_app. cbn [flat_map].
  now rewrite app_nil_r.
Qed.

Lemma parseLoop_lines ls st :
  flat_map lines (flush (fold_left parseStep ls st))
  = (flat_map lines (flush st) ++ ownedLines (opened st) ls)%list.
Proof.
  revert st. induction ls as [|l ls IH]; intros st;
    cbn [fold_left ownedLines].
  - now rewrite app_nil_r.
  - rewrite IH. unfold parseStep, isContinuation, hasColon, SplitN2.
    destruct (HasPrefix l "      ").
    + destruct st as [[c|] res]; unfold opened; cbn [fst snd].
      * rewrite !flush_lines_some; cbn [lines].
        rewrite <- !app_assoc. reflexivity.
      * reflexivity.
    + destruct (cutColon l) as [[before after]|].
      * unfold opened at 1; cbn [fst].
        rewrite flush_lines_some; cbn [lines].
        rewrite <- !app_assoc. reflexivity.
      * reflexivity.
Qed.

Lemma parseAnnotations_lines ls :
  flat_map lines (parseAnnotations ls) = ownedLines false ls.
Proof. unfold parseAnnotations. now rewrite parseLoop_lines. Qed.

Lemma ownedLines_opened ls :
  forallb (fun l => isContinuation l || hasColon l) ls = true ->
  ownedLines true ls = ls.
Proof.
  induction ls as [|l ls IH]; cbn [forallb ownedLines]; [reflexivity|].
  intros H. apply andb_true_iff in H as [Hl Hls].
  destruct (isContinuation l); [now rewrite IH|].
  cbn [orb] in Hl. now rewrite Hl, IH.
Qed.

Lemma ownedLines_whole ls : wholeBlock ls = true -> ownedLines false ls = ls.
Proof.
  unfold wholeBlock. intros H. apply andb_true_iff in H as [Hall Hhd].
  destruct ls as [|l ls]; [reflexivity|].
  cbn [forallb] in Hall. apply andb_true_iff in Hall as [Hl Hls].
  apply negb_true_iff in Hhd. cbn [ownedLines].
  rewrite Hhd in *. cbn [orb] in Hl. now rewrite Hl, ownedLines_opened.
Qed.

Lemma Includes_app anns1 anns2 k :
  Includes (anns1 ++ anns2)%list k = Includes anns1 k || Includes anns2 k.
Proof. apply existsb_app. Qed.

(** ** Files whose lines end in a line feed *)

Lemma scanLines_line l rest :
  noNewline l = true -> scanLines (l ++ nl ++ rest) = l :: scanLines rest.
Proof.
  induction l as [|c l IH]; cbn [noNewline append scanLines]; intros H.
  - reflexivity.
  - apply andb_true_iff in H as [Hc Hl]. apply negb_true_iff in Hc.
    rewrite Hc. cbn [append] in IH. now rewrite (IH Hl).
Qed.

Lemma scanLines_joinLines ls :
  forallb noNewline ls = true -> scanLines (joinLines ls) = ls.
Proof.
  induction ls as [|l ls IH]; cbn [forallb joinLines]; intros H.
  - reflexivity.
  - apply andb_true_iff in H as [Hl Hls].
    now rewrite (scanLines_line l _ Hl), IH.
Qed.

Lemma readLines_joinLines (fs : FileSystem) path ls :
  fs path = Some (joinLines ls) ->
  forallb plainLine ls = true ->
  readLines fs path = inl ls.
Proof.
  intros Hfs Hp. unfold readLines. rewrite Hfs.
  assert (Hn : forallb noNewline ls = true).
  { rewrite forallb_forall in *. intros l Hl. specialize (Hp l Hl).
    unfold plainLine in Hp. now rewrite !andb_true_iff in Hp. }
  rewrite (scanLines_joinLines ls Hn).
  assert (Hl : existsb tooLong ls = false).
  { apply not_true_iff_false. intros He.
    apply existsb_exists in He as (l & Hin & Hlong).
    rewrite forallb_forall in Hp. specialize (Hp l Hin).
    unfold plainLine in Hp. rewrite !andb_true_iff in Hp.
    destruct Hp as [_ Hp]. now rewrite Hlong in Hp. }
  rewrite Hl. f_equal.
  rewrite <- (map_id ls) at 2. apply map_ext_in.
  intros l Hin. rewrite forallb_forall in Hp. specialize (Hp l Hin).
  unfold plainLine in Hp. rewrite !andb_true_iff in Hp.
  now apply String.eqb_eq.
Qed.

(** ** Examples *)

(** The example of the specification: the value arrives with its quotes. *)
Example synthesis_example :
  processManifest
    {| FileName := "f.yaml"; Annotation := "team"; SkipAnnotation := "";
       Value := dquote ++ "platform" ++ dquote; Kind := "";
       GroupVersion := ""; Name := ""; Namespace := "" |}
    ["metadata:"; "  name: foo"] EmptyString
  = (joinLines ["metadata:"; "  name: foo"; "  annotations:";
                "    team: " ++ dquote ++ "platform" ++ dquote], true).
Proof. reflexivity. Qed.

(** The second example of the specification: [beta] goes between [alpha]
    and [zeta]. *)
Example sort_example :
  processAnnotations
    {| FileName := "f.yaml"; Annotation := "beta"; SkipAnnotation := "";
       Value := "3"; Kind := ""; GroupVersion := ""; Name := "";
       Namespace := "" |}
    ["    zeta: 1"; "    alpha: 2"] EmptyString
  = (joinLines ["    alpha: 2"; "    beta: 3"; "    zeta: 1"], true).
Proof. reflexivity. Qed.

(** ** The line-sorting merger returns a sorted permutation *)

Section LineSorterCorrect.

Lemma LineSorter_Less_unfold x y :
  LineSorter.Less x y =
    if String.eqb (beforeColon x) (beforeColon y) then
      match afterColon x, afterColon y with
      | Some i1, Some j1 => Some (String.ltb i1 j1)
      | _, _ => None
      end
    else Some (String.ltb (beforeColon x) (beforeColon y)).
Proof.
  unfold LineSorter.Less, SplitN2, beforeColon, afterColon.
  destruct (cutColon x) as [[bx ax]|], (cutColon y) as [[by' ay]|];
    cbn [nth_error]; reflexivity.
Qed.

Lemma string_ltb_asym s1 s2 :
  String.ltb s1 s2 = true -> String.ltb s2 s1 = false.
Proof.
  unfold String.ltb. rewrite (String.compare_antisym s1 s2).
  destruct (String.compare s2 s1); cbn; congruence.
Qed.

Lemma string_ltb_false_trans s1 s2 s3 :
  String.ltb s2 s1 = false -> String.ltb s3 s2 = false ->
  String.ltb s3 s1 = false.
Proof.
  rewrite !string_ltb_false_leb. apply string_leb_trans.
Qed.

Lemma string_ltb_irrefl s : String.ltb s s = false.
Proof.
  apply string_ltb_false_leb. destruct (String.leb_total s s); assumption.
Qed.

Lemma lineLe_of_Less x y : LineSorter.Less x y = Some true -> lineLe x y.
Proof.
  unfold lineLe. rewrite !LineSorter_Less_unfold, (String.eqb_sym _ (beforeColon x)).
  destruct (String.eqb (beforeColon x) (beforeColon y)) eqn:E.
  - destruct (afterColon x), (afterColon y); try discriminate.
    intros H. injection H as H. now rewrite (string_ltb_asym _ _ H).
  - intros H. injection H as H. now rewrite (string_ltb_asym _ _ H).
Qed.

Lemma lineLe_trans x y z : lineLe x y -> lineLe y z -> lineLe x z.
Proof.
  unfold lineLe. rewrite !LineSorter_Less_unfold.
  destruct (String.eqb (beforeColon y) (beforeColon x)) eqn:Eyx;
    destruct (String.eqb (beforeColon z) (beforeColon y)) eqn:Ezy.
  - apply String.eqb_eq in Eyx, Ezy. rewrite Ezy, Eyx, String.eqb_refl.
    destruct (afterColon x), (afterColon y), (afterColon z);
      try discriminate.
    intros H1 H2. injection H1 as H1. injection H2 as H2.
    now rewrite (string_ltb_false_trans _ _ _ H1 H2).
  - apply String.eqb_eq in Eyx. rewrite <- Eyx, Ezy. intros _ H. exact H.
  - apply String.eqb_eq in Ezy. rewrite Ezy, Eyx. intros H _. exact H.
  - intros H1 H2. injection H1 as H1. injection H2 as H2.
    destruct (String.eqb (beforeColon z) (beforeColon x)) eqn:Ezx.
    + apply String.eqb_eq in Ezx. rewrite Ezx in *.
      apply string_ltb_false_leb in H1, H2.
      rewrite (String.leb_antisym _ _ H1 H2), String.eqb_refl in Eyx.
      discriminate Eyx.
    + now rewrite (string_ltb_false_trans _ _ _ H1 H2).
Qed.

Let lineGe (x y : string) : Prop := lineLe y x.

Lemma LineSorter_sinkLeft_perm x acc r :
  LineSorter.sinkLeft x acc = Some r -> Permutation r (x :: acc).
Proof.
  revert r. induction acc as [|y ys IH]; intros r; cbn [LineSorter.sinkLeft].
  - intros H. injection H as <-. reflexivity.
  - destruct (LineSorter.Less x y) as [[|]|]; try discriminate.
    + destruct (LineSorter.sinkLeft x ys) as [r'|]; try discriminate.
      intros H. injection H as <-. rewrite (IH r' eq_refl). apply perm_swap.
    + intros H. injection H as <-. reflexivity.
Qed.

Lemma LineSorter_sinkLeft_sorted x acc r :
  LineSorter.sinkLeft x acc = Some r ->
  StronglySorted lineGe acc -> StronglySorted lineGe r.
Proof.
  revert r. induction acc as [|y ys IH]; intros r; cbn [LineSorter.sinkLeft].
  - intros H _. injection H as <-. repeat constructor.
  - intros H Hs. apply StronglySorted_inv in Hs as [Hys Hy].
    destruct (LineSorter.Less x y) as [[|]|] eqn:E; try discriminate.
    + destruct (LineSorter.sinkLeft x ys) as [r'|] eqn:Er; try discriminate.
      injection H as <-. constructor; [now apply IH|].
      apply (Permutation_Forall
               (Permutation_sym (LineSorter_sinkLeft_perm x ys r' Er))).
      constructor; [exact (lineLe_of_Less _ _ E) | exact Hy].
    + injection H as <-.
      constructor; [now constructor|].
      constructor; [exact E|].
      eapply Forall_impl; [|exact Hy].
      intros q Hq. unfold lineGe in *. eapply lineLe_trans; eassumption.
Qed.

Lemma LineSorter_loop l acc r :
  fold_left (fun acc x =>
               match acc with
               | Some sorted => LineSorter.sinkLeft x sorted
               | None => None
               end) l (Some acc) = Some r ->
  StronglySorted lineGe acc ->
  Permutation r (rev l ++ acc)%list /\ StronglySorted lineGe r.
Proof.
  revert acc. induction l as [|x l IH]; intros acc; cbn [fold_left rev].
  - intros H Hs. injection H as <-. split; [reflexivity | exact Hs].
  - destruct (LineSorter.sinkLeft x acc) as [acc'|] eqn:E.
    + intros H Hs.
      destruct (IH acc' H (LineSorter_sinkLeft_sorted x acc acc' E Hs))
        as [Hp Hsr].
      split; [|exact Hsr].
      rewrite Hp, (LineSorter_sinkLeft_perm x acc acc' E), <- app_assoc.
      reflexivity.
    + intros H. exfalso. clear -H.
      induction l as [|z l IHl]; cbn [fold_left] in H; [discriminate|].
      now apply IHl.
Qed.

Lemma sortAnnotations_sorted l r :
  LineSorter.sortAnnotations l = Some r ->
  Permutation r l /\ StronglySorted lineLe r.
Proof.
  unfold LineSorter.sortAnnotations.
  destruct (fold_left _ l (Some [])) as [acc|] eqn:E; [|discriminate].
  intros H. injection H as <-.
  destruct (LineSorter_loop l [] acc E (SSorted_nil _)) as [Hp Hs].
  split.
  - rewrite <- Permutation_rev, Hp, app_nil_r. symmetry.
    apply Permutation_rev.
  - now apply (StronglySorted_rev lineLe).
Qed.
End LineSorterCorrect.

(** * Further properties of the code *)

(** ** [parseAnnotations] and [annotations.Write] *)

Lemma parseStep_header st h b r :
  isContinuation h = false ->
  cutColon h = Some (b, r) ->
  parseStep st h = (Some {| key := TrimSpace b; lines := [h] |}, flush st).
Proof.
  unfold isContinuation, parseStep, SplitN2. now intros -> ->.
Qed.

Lemma parseLoop_continuations conts c res :
  forallb isContinuation conts = true ->
  fold_left parseStep conts (Some c, res)
  = (Some {| key := key c; lines := (lines c ++ conts)%list |}, res).
Proof.
  revert c. induction conts as [|l conts IH]; intros c H; cbn [fold_left].
  - rewrite app_nil_r. now destruct c.
  - cbn [forallb] in H. apply andb_true_iff in H as [Hl Hc].
    unfold parseStep at 2. unfold isContinuation in Hl. rewrite Hl.
    cbn [fst snd]. rewrite (IH _ Hc). cbn [key lines].
    now rewrite <- app_assoc.
Qed.

Lemma parseLoop_entry st e :
  wfEntry e = true ->
  fold_left parseStep (lines e) st = (Some e, flush st).
Proof.
  unfold wfEntry. destruct e as [k [|h conts]]; cbn [lines key];
    [discriminate|].
  intros H. apply andb_true_iff in H as [H Hc].
  apply andb_true_iff in H as [Hh Hk]. apply negb_true_iff in Hh.
  destruct (cutColon h) as [[b r]|] eqn:E; [|discriminate].
  apply String.eqb_eq in Hk. cbn [fold_left].
  rewrite (parseStep_header st h b r Hh E).
  rewrite (parseLoop_continuations conts _ _ Hc). cbn [key lines app].
  now rewrite Hk.
Qed.

Lemma parseLoop_entries anns st :
  forallb wfEntry anns = true ->
  flush (fold_left parseStep (flat_map lines anns) st)
  = (flush st ++ anns)%list.
Proof.
  revert st. induction anns as [|e anns IH]; intros st H;
    cbn [flat_map fold_left].
  - now rewrite app_nil_r.
  - cbn [forallb] in H. apply andb_true_iff in H as [He Hr].
    rewrite fold_left_app, (parseLoop_entry st e He), (IH _ Hr).
    unfold flush at 1; cbn [fst snd]. now rewrite <- app_assoc.
Qed.

Lemma parseStep_wf st l :
  forallb wfEntry (flush st) = true ->
  forallb wfEntry (flush (parseStep st l)) = true.
Proof.
  intros H. unfold parseStep.
  destruct (HasPrefix l "      ") eqn:Ec.
  - destruct st as [[c|] res]; cbn [fst snd]; [|exact H].
    unfold flush in *; cbn [fst snd] in *.
    rewrite forallb_app in *. apply andb_true_iff in H as [Hres Hc].
    rewrite Hres; cbn [andb forallb] in *. rewrite andb_true_r in *.
    unfold wfEntry in *. cbn [lines key].
    destruct (lines c) as [|h conts]; [discriminate|]. cbn [app].
    apply andb_true_iff in Hc as [Hc1 Hc2]. rewrite Hc1; cbn [andb].
    rewrite forallb_app, Hc2. cbn [forallb]. unfold isContinuation.
    now rewrite Ec.
  - unfold SplitN2. destruct (cutColon l) as [[b r]|] eqn:E; [|exact H].
    unfold flush at 1; cbn [fst snd].
    rewrite forallb_app, H. cbn [forallb andb]. rewrite andb_true_r.
    unfold wfEntry, isContinuation; cbn [lines key forallb].
    now rewrite Ec, E, String.eqb_refl.
Qed.

Lemma parseLoop_wf ls st :
  forallb wfEntry (flush st) = true ->
  forallb wfEntry (flush (fold_left parseStep ls st)) = true.
Proof.
  revert st. induction ls as [|l ls IH]; intros st H; cbn [fold_left].
  - exact H.
  - apply IH, parseStep_wf, H.
Qed.

Lemma parseAnnotations_wf ls : forallb wfEntry (parseAnnotations ls) = true.
Proof. apply parseLoop_wf. reflexivity. Qed.

Lemma parseAnnotations_written anns :
  forallb wfEntry anns = true ->
  parseAnnotations (flat_map lines anns) = anns.
Proof.
  intros H. unfold parseAnnotations.
  now rewrite (parseLoop_entries anns (None, []) H).
Qed.

Lemma forallb_perm {A} (f : A -> bool) l1 l2 :
  Permutation l1 l2 -> forallb f l1 = true -> forallb f l2 = true.
Proof.
  intros Hp H. rewrite forallb_forall in *.
  intros x Hx. apply H. eapply Permutation_in; [symmetry|]; eassumption.
Qed.

Lemma Includes_perm anns1 anns2 k :
  Permutation anns1 anns2 -> Includes anns1 k = true -> Includes anns2 k = true.
Proof.
  unfold Includes. intros Hp H.
  apply existsb_exists in H as (x & Hin & Hx).
  apply existsb_exists. exists x. split; [|exact Hx].
  eapply Permutation_in; eassumption.
Qed.

(** X1.  Every entry [parseAnnotations] returns has at least one line; its
    first line is no continuation line and holds a colon, its key is the
    trimmed text before that colon, and all its other lines are
    continuation lines. *)
Theorem parsed_entries_wellformed ls :
  forallb wfEntry (parseAnnotations ls) = true.
Proof. apply parseAnnotations_wf. Qed.

(** X2.  Writing the entries of a parsed block and parsing the written
    lines again gives the same entries: what [annotations.Write] emits is
    read back by [parseAnnotations] without loss. *)
Theorem parse_write_roundtrip ls :
  parseAnnotations (flat_map lines (parseAnnotations ls))
  = parseAnnotations ls.
Proof. apply parseAnnotations_written, parseAnnotations_wf. Qed.

(** X3.  The entry-based merger is idempotent on lines when the line it
    writes for the new entry parses back to that entry: the lines one merge
    writes are left as they are, with no change reported, by a second merge
    with the same arguments. *)
Theorem processAnnotations_idempotent a ls out :
  wfEntry (newAnnotation (Annotation a) (Value a)) = true ->
  exists written,
    fst (processAnnotations a ls out) = out ++ joinLines written
    /\ forall out2,
         processAnnotations a written out2 = (out2 ++ joinLines written, false).
Proof.
  intros Hnew. unfold processAnnotations at 1.
  destruct (negb (Includes (parseAnnotations ls) (Annotation a))
            && negb (Includes (parseAnnotations ls) (SkipAnnotation a)))
    eqn:Hc; cbn [fst].
  - set (merged := Sort (Add (parseAnnotations ls) (Annotation a) (Value a))).
    exists (flat_map lines merged). split; [apply Write_spec|].
    intros out2. unfold processAnnotations.
    assert (Hwf : forallb wfEntry merged = true).
    { apply (forallb_perm _ _ _ (Permutation_sym (Sort_perm _))).
      unfold Add. rewrite forallb_app, parseAnnotations_wf.
      cbn [forallb andb]. now rewrite Hnew. }
    rewrite (parseAnnotations_written merged Hwf).
    assert (Hin : Includes merged (Annotation a) = true).
    { apply (Includes_perm _ _ _ (Permutation_sym (Sort_perm _))).
      unfold Add. rewrite Includes_app. cbn [Includes existsb newAnnotation key].
      now rewrite String.eqb_refl, orb_true_r. }
    rewrite Hin. cbn [negb andb]. now rewrite Write_spec.
  - exists (flat_map lines (parseAnnotations ls)). split; [apply Write_spec|].
    intros out2. unfold processAnnotations.
    rewrite (parseAnnotations_written _ (parseAnnotations_wf ls)), Hc.
    now rewrite Write_spec.
Qed.

Lemma processAnnotations_idempotent_witness :
  wfEntry (newAnnotation (Annotation team) (Value team)) = true
  /\ exists written,
       fst (processAnnotations team ["    zone: b"; "    # note"] EmptyString)
       = EmptyString ++ joinLines written
       /\ forall out2,
            processAnnotations team written out2
            = (out2 ++ joinLines written, false).
Proof.
  split; [reflexivity|].
  apply (processAnnotations_idempotent team ["    zone: b"; "    # note"]
           EmptyString).
  reflexivity.
Defined.

(** ** [processMetadata] on a block with one annotation block *)

Lemma processAnnotations_out a ls (out : Buffer) :
  processAnnotations a ls out
  = (out ++ fst (processAnnotations a ls EmptyString),
     snd (processAnnotations a ls EmptyString)).
Proof.
  rewrite <- processAnnotations_prepend. now rewrite append_nil_r.
Qed.

Lemma metadataLoop_inside a ls al ap ch out :
  forallb indented4 ls = true ->
  fold_left (metadataStep a) ls
    {| annotationLines := al; inAnnotations := true;
       annotationsProcessed := ap; mChanged := ch; mOut := out |}
  = {| annotationLines := (al ++ ls)%list; inAnnotations := true;
       annotationsProcessed := ap; mChanged := ch; mOut := out |}.
Proof.
  revert al. induction ls as [|l ls IH]; intros al H; cbn [fold_left].
  - now rewrite app_nil_r.
  - cbn [forallb] in H. apply andb_true_iff in H as [Hl Hls].
    unfold indented4 in Hl.
    unfold metadataStep at 2; cbn [inAnnotations]. rewrite Hl; cbn [negb].
    unfold collectAnnotation; cbn [annotationLines inAnnotations
      annotationsProcessed mChanged mOut].
    rewrite (IH _ Hls). now rewrite <- app_assoc.
Qed.

Lemma metadataStep_open a l al ap ch out :
  HasPrefix l "  annotations:" = true ->
  metadataStep a
    {| annotationLines := al; inAnnotations := false;
       annotationsProcessed := ap; mChanged := ch; mOut := out |} l
  = {| annotationLines := al; inAnnotations := true;
       annotationsProcessed := ap; mChanged := ch;
       mOut := out ++ l ++ nl |}.
Proof.
  intros Hl. unfold metadataStep; cbn [inAnnotations].
  unfold emitMetadataLine; cbn [annotationLines inAnnotations
    annotationsProcessed mChanged mOut].
  now rewrite Hl.
Qed.

Lemma metadataStep_close a p al ap ch out :
  indented4 p = false -> noAnnotations p = true ->
  metadataStep a
    {| annotationLines := al; inAnnotations := true;
       annotationsProcessed := ap; mChanged := ch; mOut := out |} p
  = {| annotationLines := al; inAnnotations := false;
       annotationsProcessed := true;
       mChanged := snd (processAnnotations a al EmptyString);
       mOut := out ++ fst (processAnnotations a al EmptyString)
               ++ p ++ nl |}.
Proof.
  intros Hp Hn. unfold indented4 in Hp.
  unfold noAnnotations in Hn. apply negb_true_iff in Hn.
  unfold metadataStep; cbn [inAnnotations]. rewrite Hp; cbn [negb].
  unfold emitMetadataLine, closeAnnotations; cbn [annotationLines
    inAnnotations annotationsProcessed mChanged mOut].
  rewrite Hn, (processAnnotations_out a al out); cbn [fst snd].
  unfold WriteString. now rewrite !append_assoc.
Qed.

(** A matching metadata block with one [  annotations:] line and entries
    under it: the lines around the annotation block are copied and the
    block goes through [processAnnotations]. *)
Lemma processMetadata_annotationBlock a pre annLine block post kind gv out :
  let body := (pre ++ annLine :: block ++ post)%list in
  skipProcessing a kind gv (fst (scanIdent body)) (snd (scanIdent body))
  = false ->
  forallb noAnnotations pre = true ->
  HasPrefix annLine "  annotations:" = true ->
  forallb indented4 block = true ->
  block <> [] ->
  closes4 post = true ->
  forallb noAnnotations post = true ->
  processMetadata a body kind gv out
  = (out ++ joinLines pre ++ annLine ++ nl
         ++ fst (processAnnotations a block EmptyString)
         ++ joinLines post,
     snd (processAnnotations a block EmptyString)).
Proof.
  intros body Hskip Hpre Hann Hblock Hne Hclose Hpost.
  unfold processMetadata.
  destruct (scanIdent body) as [name namespace]; cbn [fst snd] in Hskip.
  rewrite Hskip. unfold body.
  rewrite fold_left_app, (metadataLoop_outside a pre [] false false out Hpre).
  cbn [fold_left]. rewrite (metadataStep_open a annLine _ _ _ _ Hann).
  rewrite fold_left_app, (metadataLoop_inside a block [] false false _ Hblock).
  cbn [app].
  assert (Hlen : (List.length block =? 0)%nat = false).
  { destruct block; [contradiction | reflexivity]. }
  destruct post as [|p ps].
  - cbn [fold_left]. unfold finishMetadata;
      cbn [annotationLines inAnnotations annotationsProcessed mChanged mOut].
    rewrite Hlen; cbn [annotationsProcessed negb annotationLines mOut].
    rewrite (processAnnotations_out a block _); cbn [fst snd joinLines].
    now rewrite !append_nil_r, !append_assoc.
  - cbn [closes4] in Hclose. apply negb_true_iff in Hclose.
    cbn [forallb] in Hpost. apply andb_true_iff in Hpost as [Hp Hps].
    cbn [fold_left].
    rewrite (metadataStep_close a p _ _ _ _ Hclose Hp).
    rewrite (metadataLoop_outside a ps _ _ _ _ Hps).
    unfold finishMetadata;
      cbn [annotationLines inAnnotations annotationsProcessed mChanged mOut].
    rewrite Hlen; cbn [annotationsProcessed negb mOut mChanged joinLines].
    now rewrite !append_assoc.
Qed.

(** The same block when the merge has nothing to add and every line under
    [  annotations:] belongs to an entry: it is copied, filters or not. *)
Lemma processMetadata_annotated a pre annLine block post kind gv out :
  forallb noAnnotations pre = true ->
  HasPrefix annLine "  annotations:" = true ->
  forallb indented4 block = true ->
  wholeBlock block = true ->
  closes4 post = true ->
  forallb noAnnotations post = true ->
  Includes (parseAnnotations block) (Annotation a)
  || Includes (parseAnnotations block) (SkipAnnotation a) = true ->
  processMetadata a (pre ++ annLine :: block ++ post)%list kind gv out
  = (out ++ joinLines (pre ++ annLine :: block ++ post)%list, false).
Proof.
  intros Hpre Hann Hblock Hwhole Hclose Hpost Hinc.
  set (body := (pre ++ annLine :: block ++ post)%list).
  destruct (skipProcessing a kind gv (fst (scanIdent body))
              (snd (scanIdent body))) eqn:Hskip.
  - now apply processMetadata_skip.
  - assert (Hne : block <> []).
    { intros ->. cbn in Hinc. discriminate Hinc. }
    unfold body in *.
    rewrite (processMetadata_annotationBlock a pre annLine block post kind gv
               out Hskip Hpre Hann Hblock Hne Hclose Hpost).
    assert (Hpa : processAnnotations a block EmptyString
                  = (joinLines block, false)).
    { unfold processAnnotations.
      apply orb_true_iff in Hinc.
      assert (Hc : negb (Includes (parseAnnotations block) (Annotation a))
                   && negb (Includes (parseAnnotations block)
                              (SkipAnnotation a)) = false).
      { destruct Hinc as [-> | ->]; cbn [negb andb];
          [reflexivity | apply andb_false_r]. }
      rewrite Hc, Write_spec, parseAnnotations_lines.
      now rewrite (ownedLines_whole block Hwhole). }
    rewrite Hpa; cbn [fst snd].
    rewrite joinLines_app. cbn [joinLines]. rewrite joinLines_app.
    now rewrite ?append_assoc.
Qed.

Lemma joinLines_document doc m rest :
  fromMetadata doc = m :: rest ->
  joinLines doc
  = joinLines (beforeMetadata doc) ++ m ++ nl
    ++ joinLines (metadataBlock doc) ++ joinLines (afterBlock doc).
Proof.
  intros Hm. unfold metadataBlock, afterBlock. rewrite Hm; cbn [tl].
  rewrite (doc_split doc) at 1. rewrite Hm.
  rewrite joinLines_app. cbn [joinLines].
  rewrite (indented_split rest) at 1. now rewrite joinLines_app.
Qed.

(** When the metadata step copies the metadata block, the document is
    copied. *)
Lemma processManifest_block_copied a doc out :
  singleBlock doc = true ->
  processMetadata a (metadataBlock doc) (fst (scanHeader doc))
    (snd (scanHeader doc)) EmptyString
  = (joinLines (metadataBlock doc), false) ->
  processManifest a doc out = (out ++ joinLines doc, false).
Proof.
  intros Hs Hcopy.
  destruct (fromMetadata doc) as [|m rest] eqn:Hm.
  - apply processManifest_noMetadata.
    rewrite (doc_split doc), Hm, app_nil_r.
    apply beforeMetadata_noMetadata.
  - rewrite (processManifest_singleBlock a doc out m rest Hs Hm).
    pose proof (joinLines_document doc m rest Hm) as Hdoc.
    destruct (metadataBlock doc) as [|b bs], (afterBlock doc) as [|p ps];
      [reflexivity| | |];
      cbv zeta; rewrite Hcopy; cbn [fst snd];
      rewrite Hdoc; reflexivity.
Qed.

(** X4.  For a matching metadata block that holds one [  annotations:] line
    with at least one line under it, [processMetadata] copies the lines
    before and after the annotation block and puts between them what
    [processAnnotations] writes for the block; its flag is the flag of that
    merge. *)
Theorem processMetadata_merges_block a pre annLine block post kind gv out :
  let body := (pre ++ annLine :: block ++ post)%list in
  skipProcessing a kind gv (fst (scanIdent body)) (snd (scanIdent body))
  = false ->
  forallb noAnnotations pre = true ->
  HasPrefix annLine "  annotations:" = true ->
  forallb indented4 block = true ->
  block <> [] ->
  closes4 post = true ->
  forallb noAnnotations post = true ->
  processMetadata a body kind gv out
  = (out ++ joinLines pre ++ annLine ++ nl
         ++ fst (processAnnotations a block EmptyString)
         ++ joinLines post,
     snd (processAnnotations a block EmptyString)).
Proof. apply processMetadata_annotationBlock. Qed.

Lemma processMetadata_merges_block_witness :
  processMetadata team
    (["  name: foo"] ++ "  annotations:" :: ["    zone: b"; "    app: web"]
     ++ ["  labels:"; "    tier: one"])%list
    "ConfigMap" "v1" EmptyString
  = (joinLines ["  name: foo"; "  annotations:"; "    app: web";
                "    team: platform"; "    zone: b"; "  labels:";
                "    tier: one"], true).
Proof.
  rewrite (processMetadata_merges_block team ["  name: foo"] "  annotations:"
             ["    zone: b"; "    app: web"] ["  labels:"; "    tier: one"]
             "ConfigMap" "v1" EmptyString);
    [reflexivity | reflexivity | reflexivity | reflexivity | reflexivity
     | discriminate | reflexivity | reflexivity].
Defined.

Lemma annotated_shape_copied a doc pre annLine block post out :
  singleBlock doc = true ->
  metadataBlock doc = (pre ++ annLine :: block ++ post)%list ->
  forallb noAnnotations pre = true ->
  HasPrefix annLine "  annotations:" = true ->
  forallb indented4 block = true ->
  wholeBlock block = true ->
  closes4 post = true ->
  forallb noAnnotations post = true ->
  Includes (parseAnnotations block) (Annotation a)
  || Includes (parseAnnotations block) (SkipAnnotation a) = true ->
  processManifest a doc out = (out ++ joinLines doc, false).
Proof.
  intros Hs Hbody Hpre Hann Hblock Hwhole Hclose Hpost Hinc.
  apply processManifest_block_copied; [exact Hs|].
  rewrite Hbody.
  now apply processMetadata_annotated.
Qed.



(** ** [Run] on the file system *)

Lemma WriteFile_other fs path data p :
  p <> path -> snd (WriteFile fs path data) p = fs p.
Proof.
  intros Hp. apply String.eqb_neq in Hp. unfold WriteFile.
  destruct (readOnly fs path); [reflexivity|].
  destruct (room fs path) as [n|];
    [destruct (n <? String.length data)%nat|];
    cbn [snd store contents]; now rewrite Hp.
Qed.

Lemma WriteFile_done fs path data :
  canWrite fs path data = true ->
  WriteFile fs path data = (None, store fs path data).
Proof.
  unfold canWrite, WriteFile. intros H.
  apply andb_true_iff in H as [Hro Hroom]. apply negb_true_iff in Hro.
  rewrite Hro. destruct (room fs path) as [n|]; [|reflexivity].
  apply Nat.leb_le in Hroom.
  destruct (n <? String.length data)%nat eqn:E; [|reflexivity].
  apply Nat.ltb_lt in E. lia.
Qed.

Lemma store_same fs path data : store fs path data path = Some data.
Proof. cbn [store contents]. now rewrite String.eqb_refl. Qed.

Lemma runLoop_noMetadata a ls cur out :
  forallb noMetadata ls = true ->
  forallb noMetadata cur = true ->
  forallb noMetadata (fst (fold_left (runStep a) ls (cur, out))) = true
  /\ snd (fold_left (runStep a) ls (cur, out))
     ++ joinLines (fst (fold_left (runStep a) ls (cur, out)))
     = out ++ joinLines cur ++ joinLines ls.
Proof.
  revert cur out. induction ls as [|l ls IH]; intros cur out H Hcur;
    cbn [fold_left joinLines].
  - split; [exact Hcur|]. cbn [fst snd]. now rewrite append_nil_r.
  - cbn [forallb] in H. apply andb_true_iff in H as [Hl Hls].
    unfold runStep at 2 4 6. destruct (HasPrefix l "---"); cbn [fst snd].
    + destruct (IH [] (WriteString
                         (fst (processManifest a cur out)) (l ++ nl))
                  Hls eq_refl) as [H1 H2].
      split; [exact H1|]. rewrite H2.
      rewrite (processManifest_noMetadata a cur out Hcur); cbn [fst].
      unfold WriteString. cbn [joinLines]. now rewrite !append_assoc.
    + assert (Hcur' : forallb noMetadata (cur ++ [l])%list = true).
      { rewrite forallb_app, Hcur. cbn [forallb]. now rewrite Hl. }
      destruct (IH (cur ++ [l])%list out Hls Hcur') as [H1 H2].
      split; [exact H1|]. rewrite H2, joinLines_app. cbn [joinLines].
      now rewrite !append_nil_r, !append_assoc.
Qed.

Lemma assemble_noMetadata a ls :
  forallb noMetadata ls = true ->
  assemble a ls = (joinLines ls, false).
Proof.
  intros Hn. unfold assemble.
  destruct (runLoop_noMetadata a ls [] EmptyString Hn eq_refl) as [H1 H2].
  rewrite (processManifest_noMetadata a _ _ H1).
  f_equal. exact H2.
Qed.

Lemma assemble_single a doc :
  forallb noSeparator doc = true ->
  assemble a doc = processManifest a doc EmptyString.
Proof.
  intros H. unfold assemble. now rewrite (runLoop_document a doc [] _ H).
Qed.

(** X6.  [Run] leaves every file other than [FileName] as it is, whether
    it succeeds or fails.  When [readLines] fails, [Run] returns its error
    and changes nothing; any other error [Run] returns is the error of the
    write of the assembled buffer, which it attempts only when the flag it
    tests is set. *)
Theorem Run_touches_one_file a fs :
  (forall p, p <> FileName a -> snd (Run a fs) p = fs p)
  /\ (forall e, readLines fs (FileName a) = inr e -> Run a fs = (Some e, fs))
  /\ (forall e, fst (Run a fs) = Some e ->
        readLines fs (FileName a) = inr e
        \/ exists ls,
             readLines fs (FileName a) = inl ls
             /\ snd (assemble a ls) = true
             /\ fst (WriteFile fs (FileName a) (fst (assemble a ls)))
                = Some e).
Proof.
  unfold Run. destruct (readLines fs (FileName a)) as [ls|err].
  - destruct (assemble a ls) as [output [|]] eqn:E; cbn [fst snd].
    + split; [intros p Hp; now apply WriteFile_other|].
      split; [discriminate|].
      intros e He. right. exists ls. rewrite E. now repeat split.
    + split; [reflexivity|]. split; discriminate.
  - cbn [fst snd]. split; [reflexivity|]. split.
    + intros e H. now injection H as <-.
    + intros e H. left. now injection H as <-.
Qed.

(** X7.  A file none of whose lines begins with [metadata:] is never
    written, however many documents it holds: [Run] returns no error and
    the file system it was given. *)
Theorem Run_without_metadata a fs ls :
  readLines fs (FileName a) = inl ls ->
  forallb noMetadata ls = true ->
  Run a fs = (None, fs).
Proof.
  intros Hr Hn. unfold Run.
  now rewrite Hr, (assemble_noMetadata a ls Hn).
Qed.

Lemma Run_without_metadata_witness :
  Run team
    (oneFile "f.yaml"
       (joinLines ["kind: Secret"; "data:"; "---"; "kind: List"; "items:"]))
  = (None,
     oneFile "f.yaml"
       (joinLines ["kind: Secret"; "data:"; "---"; "kind: List"; "items:"])).
Proof.
  apply (Run_without_metadata team _
           ["kind: Secret"; "data:"; "---"; "kind: List"; "items:"]);
    reflexivity.
Defined.

(** X8.  In a file with at least one separator line, whether [Run] writes
    is decided by the document after the last separator alone: if that
    document reports a change, [Run] writes the whole buffer, the documents
    before it as processed, and returns the outcome of that write; if not,
    nothing is written and no error is returned. *)
Theorem Run_writes_on_last_flag a fs before sep last :
  readLines fs (FileName a) = inl (before ++ sep :: last)%list ->
  isSeparator sep = true ->
  forallb noSeparator last = true ->
  Run a fs
  = if snd (processManifest a last EmptyString)
    then WriteFile fs (FileName a)
           (fst (assemble a (before ++ sep :: last)%list))
    else (None, fs).
Proof.
  intros Hr Hs Hl. unfold Run. rewrite Hr.
  pose proof (assemble_flag a before sep last Hs Hl) as Hflag.
  destruct (assemble a (before ++ sep :: last)%list) as [output changed].
  cbn [fst snd] in *. rewrite <- Hflag. now destruct changed.
Qed.

Lemma Run_writes_on_last_flag_witness :
  snd (Run team
         (oneFile "f.yaml"
            (joinLines ["kind: Secret"; "---"; "metadata:"; "  name: a"])))
    "f.yaml"
  = Some (joinLines ["kind: Secret"; "---"; "metadata:"; "  name: a";
                     "  annotations:"; "    team: platform"]).
Proof.
  rewrite (Run_writes_on_last_flag team
             (oneFile "f.yaml"
                (joinLines ["kind: Secret"; "---"; "metadata:"; "  name: a"]))
             ["kind: Secret"] "---" ["metadata:"; "  name: a"]
             eq_refl eq_refl eq_refl).
  reflexivity.
Defined.

(** ** [Run] on a file of one document *)

Lemma document_parts doc m rest :
  fromMetadata doc = m :: rest ->
  doc = (beforeMetadata doc ++ m :: metadataBlock doc ++ afterBlock doc)%list.
Proof.
  intros Hm. unfold metadataBlock, afterBlock. rewrite Hm; cbn [tl].
  rewrite <- (indented_split rest), <- Hm. apply doc_split.
Qed.

Lemma beforeMetadata_app pre m r :
  forallb noMetadata pre = true -> isMetadataLine m = true ->
  beforeMetadata (pre ++ m :: r)%list = pre.
Proof.
  intros Hpre Hm. induction pre as [|l pre IH]; cbn [app beforeMetadata].
  - now rewrite Hm.
  - cbn [forallb] in Hpre. apply andb_true_iff in Hpre as [Hl Hpre].
    unfold noMetadata in Hl. apply negb_true_iff in Hl.
    now rewrite Hl, IH.
Qed.

Lemma fromMetadata_app pre m r :
  forallb noMetadata pre = true -> isMetadataLine m = true ->
  fromMetadata (pre ++ m :: r)%list = m :: r.
Proof.
  intros Hpre Hm. induction pre as [|l pre IH]; cbn [app fromMetadata].
  - now rewrite Hm.
  - cbn [forallb] in Hpre. apply andb_true_iff in Hpre as [Hl Hpre].
    unfold noMetadata in Hl. apply negb_true_iff in Hl.
    now rewrite Hl, IH.
Qed.

Lemma takeIndented_app x y :
  forallb indented2 x = true ->
  takeIndented (x ++ y)%list = (x ++ takeIndented y)%list.
Proof.
  induction x as [|l x IH]; cbn [app forallb takeIndented]; intros H.
  - reflexivity.
  - apply andb_true_iff in H as [Hl Hx]. now rewrite Hl, IH.
Qed.

Lemma dropIndented_app x y :
  forallb indented2 x = true ->
  dropIndented (x ++ y)%list = dropIndented y.
Proof.
  induction x as [|l x IH]; cbn [app forallb dropIndented]; intros H.
  - reflexivity.
  - apply andb_true_iff in H as [Hl Hx]. now rewrite Hl, IH.
Qed.

Lemma takeIndented_dropIndented ls : takeIndented (dropIndented ls) = [].
Proof.
  induction ls as [|l ls IH]; cbn [dropIndented]; [reflexivity|].
  destruct (indented2 l) eqn:E; [exact IH|].
  cbn [takeIndented]. now rewrite E.
Qed.

Lemma dropIndented_dropIndented ls :
  dropIndented (dropIndented ls) = dropIndented ls.
Proof.
  induction ls as [|l ls IH]; cbn [dropIndented]; [reflexivity|].
  destruct (indented2 l) eqn:E; [exact IH|].
  cbn [dropIndented]. now rewrite E.
Qed.

Lemma newLine_indented4 a : indented4 (newLine a) = true.
Proof.
  unfold indented4, newLine, HasPrefix.
  change (String.prefix EmptyString (Annotation a ++ ": " ++ Value a) = true).
  now destruct (Annotation a ++ ": " ++ Value a).
Qed.

(** The shape of the document with the synthesized block. *)
Lemma withAnnotations_shape a doc m rest :
  fromMetadata doc = m :: rest ->
  beforeMetadata (withAnnotations a doc m) = beforeMetadata doc
  /\ fromMetadata (withAnnotations a doc m)
     = m :: (metadataBlock doc ++ ["  annotations:"; newLine a]
             ++ afterBlock doc)%list
  /\ metadataBlock (withAnnotations a doc m)
     = (metadataBlock doc ++ ["  annotations:"; newLine a])%list
  /\ afterBlock (withAnnotations a doc m) = afterBlock doc.
Proof.
  intros Hm.
  pose proof (beforeMetadata_noMetadata doc) as Hb.
  pose proof (fromMetadata_head doc m rest Hm) as Hhead.
  assert (Hfrom : fromMetadata (withAnnotations a doc m)
                  = m :: (metadataBlock doc ++ ["  annotations:"; newLine a]
                          ++ afterBlock doc)%list).
  { unfold withAnnotations. now apply fromMetadata_app. }
  split; [unfold withAnnotations; now apply beforeMetadata_app|].
  split; [exact Hfrom|].
  assert (Hblock : forallb indented2 (metadataBlock doc) = true).
  { unfold metadataBlock. apply takeIndented_indented. }
  unfold metadataBlock at 1, afterBlock at 1. rewrite Hfrom; cbn [tl].
  rewrite (takeIndented_app _ _ Hblock), (dropIndented_app _ _ Hblock).
  cbn [app takeIndented dropIndented].
  change (indented2 "  annotations:") with true.
  change (indented2 (newLine a)) with true. cbv iota.
  unfold afterBlock.
  now rewrite takeIndented_dropIndented, dropIndented_dropIndented.
Qed.

Lemma forallb_withAnnotations (f : string -> bool) a doc m rest :
  fromMetadata doc = m :: rest ->
  forallb f doc = true ->
  f "  annotations:" = true -> f (newLine a) = true ->
  forallb f (withAnnotations a doc m) = true.
Proof.
  intros Hm Hdoc Hann Hnew.
  rewrite (document_parts doc m rest Hm) in Hdoc.
  unfold withAnnotations.
  rewrite !forallb_app in *. cbn [forallb] in *. rewrite !forallb_app in *.
  apply andb_true_iff in Hdoc as [H1 H2].
  apply andb_true_iff in H2 as [H2 H3].
  apply andb_true_iff in H3 as [H3 H4].
  cbn [forallb]. now rewrite H1, H2, H3, H4, Hann, Hnew.
Qed.

(** A matching document with one metadata block, not at the very end, and
    no [  annotations:] line in it gains the synthesized block. *)
Lemma processManifest_withAnnotations a doc out m rest :
  singleBlock doc = true ->
  fromMetadata doc = m :: rest ->
  rest <> [] ->
  filtersDiffer a doc = false ->
  forallb noAnnotations (metadataBlock doc) = true ->
  processManifest a doc out
  = (out ++ joinLines (withAnnotations a doc m), true).
Proof.
  intros Hs Hm Hrest Hf Hno.
  rewrite (processManifest_singleBlock a doc out m rest Hs Hm).
  unfold filtersDiffer in Hf.
  pose proof (processMetadata_synthesize _ _ _ _ EmptyString Hf Hno) as Hsyn.
  assert (Hne : metadataBlock doc <> [] \/ afterBlock doc <> []).
  { unfold metadataBlock, afterBlock. rewrite Hm; cbn [tl].
    destruct rest as [|l r]; [contradiction|]. cbn [takeIndented dropIndented].
    destruct (indented2 l); [left | right]; discriminate. }
  assert (Hjoin : joinLines (withAnnotations a doc m)
                  = joinLines (beforeMetadata doc) ++ m ++ nl
                    ++ (joinLines (metadataBlock doc) ++ "  annotations:" ++ nl
                        ++ "    " ++ Annotation a ++ ": " ++ Value a ++ nl)
                    ++ joinLines (afterBlock doc)).
  { unfold withAnnotations, newLine.
    rewrite joinLines_app. cbn [joinLines]. rewrite joinLines_app.
    cbn [joinLines app]. now rewrite !append_assoc. }
  rewrite Hjoin.
  destruct (metadataBlock doc) as [|b bs], (afterBlock doc) as [|p ps];
    [destruct Hne as [Hne|Hne]; contradiction| | |];
    cbv zeta; rewrite Hsyn; cbn [fst snd];
    now rewrite append_nil_l.
Qed.

Lemma Run_unfold_annotates a (fs : FileSystem) doc m rest :
  fs (FileName a) = Some (joinLines doc) ->
  forallb plainLine doc = true ->
  forallb noSeparator doc = true ->
  singleBlock doc = true ->
  fromMetadata doc = m :: rest ->
  rest <> [] ->
  filtersDiffer a doc = false ->
  forallb noAnnotations (metadataBlock doc) = true ->
  Run a fs
  = WriteFile fs (FileName a) (joinLines (withAnnotations a doc m)).
Proof.
  intros Hfs Hplain Hsep Hs Hm Hrest Hf Hno. unfold Run.
  rewrite (readLines_joinLines fs (FileName a) doc Hfs Hplain).
  rewrite (assemble_single a doc Hsep).
  now rewrite (processManifest_withAnnotations a doc EmptyString m rest
                 Hs Hm Hrest Hf Hno).
Qed.

(** X9.  [Run] on a file that holds one document, its lines ending in a
    line feed, with one metadata block that is not at the very end of the
    file, matches the filters and has no [  annotations:] line: [Run] writes
    the document with the line [  annotations:] and the new entry right
    after the lines of the metadata block, everything else byte for byte,
    and returns the outcome of that write.  When the write meets no
    obstacle the file holds that text and no error is returned; when the
    file cannot be opened for writing, [Run] returns the error and the file
    is as it was. *)
Theorem Run_annotates_document a (fs : FileSystem) doc m rest :
  fs (FileName a) = Some (joinLines doc) ->
  forallb plainLine doc = true ->
  forallb noSeparator doc = true ->
  singleBlock doc = true ->
  fromMetadata doc = m :: rest ->
  rest <> [] ->
  filtersDiffer a doc = false ->
  forallb noAnnotations (metadataBlock doc) = true ->
  let text := joinLines (withAnnotations a doc m) in
  Run a fs = WriteFile fs (FileName a) text
  /\ (canWrite fs (FileName a) text = true ->
      Run a fs = (None, store fs (FileName a) text))
  /\ (readOnly fs (FileName a) = true ->
      Run a fs = (Some ErrPermission, fs)).
Proof.
  intros Hfs Hplain Hsep Hs Hm Hrest Hf Hno text.
  pose proof (Run_unfold_annotates a fs doc m rest Hfs Hplain Hsep Hs Hm
                Hrest Hf Hno) as HRun.
  fold text in HRun. split; [exact HRun|]. split.
  - intros Hw. now rewrite HRun, (WriteFile_done _ _ _ Hw).
  - intros Hro. rewrite HRun. unfold WriteFile. now rewrite Hro.
Qed.

Lemma Run_annotates_document_witness :
  snd (Run teamOfFoo
         (oneFile "f.yaml"
            (joinLines ["kind: ConfigMap"; "metadata:"; "  name: foo";
                        "data:"; "  key: value"])))
    "f.yaml"
  = Some (joinLines ["kind: ConfigMap"; "metadata:"; "  name: foo";
                     "  annotations:"; "    team: platform"; "data:";
                     "  key: value"]).
Proof.
  rewrite (proj1 (Run_annotates_document teamOfFoo
             (oneFile "f.yaml"
                (joinLines ["kind: ConfigMap"; "metadata:"; "  name: foo";
                            "data:"; "  key: value"]))
             ["kind: ConfigMap"; "metadata:"; "  name: foo"; "data:";
              "  key: value"]
             "metadata:" ["  name: foo"; "data:"; "  key: value"]
             eq_refl eq_refl eq_refl eq_refl eq_refl
             ltac:(discriminate) eq_refl eq_refl)).
  reflexivity.
Defined.

(** X10.  On such a file, when the write of the first run met no obstacle,
    a second run with the same arguments changes nothing, provided the line
    written for the new entry is read back as it was written and parses back
    to the entry: [Run] returns no error and the file system the first run
    left. *)
Theorem Run_twice_on_document a (fs : FileSystem) doc m rest :
  fs (FileName a) = Some (joinLines doc) ->
  forallb plainLine doc = true ->
  forallb noSeparator doc = true ->
  singleBlock doc = true ->
  fromMetadata doc = m :: rest ->
  rest <> [] ->
  filtersDiffer a doc = false ->
  forallb noAnnotations (metadataBlock doc) = true ->
  plainLine (newLine a) = true ->
  wfEntry (newAnnotation (Annotation a) (Value a)) = true ->
  canWrite fs (FileName a) (joinLines (withAnnotations a doc m)) = true ->
  Run a (snd (Run a fs)) = (None, snd (Run a fs)).
Proof.
  intros Hfs Hplain Hsep Hs Hm Hrest Hf Hno Hnewplain Hwf Hwrite.
  rewrite (Run_unfold_annotates a fs doc m rest Hfs Hplain Hsep Hs Hm Hrest
             Hf Hno).
  rewrite (WriteFile_done _ _ _ Hwrite). cbn [snd].
  set (doc' := withAnnotations a doc m) in *.
  set (fs1 := store fs (FileName a) (joinLines doc')).
  destruct (withAnnotations_shape a doc m rest Hm) as (Hb' & Hfrom' & Hblock' & Hafter').
  fold doc' in Hb', Hfrom', Hblock', Hafter'.
  assert (Hplain' : forallb plainLine doc' = true).
  { apply (forallb_withAnnotations plainLine a doc m rest Hm Hplain);
      [reflexivity | exact Hnewplain]. }
  assert (Hsep' : forallb noSeparator doc' = true).
  { apply (forallb_withAnnotations noSeparator a doc m rest Hm Hsep);
      reflexivity. }
  assert (Hs' : singleBlock doc' = true).
  { unfold singleBlock. rewrite Hafter'. exact Hs. }
  assert (Hcopy : processManifest a doc' EmptyString = (joinLines doc', false)).
  { apply (annotated_shape_copied a doc' (metadataBlock doc) "  annotations:"
             [newLine a] [] EmptyString Hs').
    - now rewrite Hblock'.
    - exact Hno.
    - reflexivity.
    - cbn [forallb]. now rewrite newLine_indented4.
    - unfold wholeBlock, wfEntry in *. cbn [lines newAnnotation forallb] in *.
      fold (newLine a) in Hwf.
      apply andb_true_iff in Hwf as [Hwf _].
      apply andb_true_iff in Hwf as [Hc Hk].
      rewrite Hc. apply negb_true_iff in Hc. rewrite Hc. cbn [orb andb].
      unfold hasColon. destruct (cutColon (newLine a)); [reflexivity|].
      discriminate Hk.
    - reflexivity.
    - reflexivity.
    - change [newLine a]
        with (flat_map lines [newAnnotation (Annotation a) (Value a)]).
      rewrite parseAnnotations_written
        by (cbn [forallb]; now rewrite Hwf).
      cbn [Includes existsb newAnnotation key].
      now rewrite String.eqb_refl. }
  unfold Run.
  rewrite (readLines_joinLines fs1 (FileName a) doc'
             (store_same fs (FileName a) (joinLines doc')) Hplain').
  rewrite (assemble_single a doc' Hsep'), Hcopy.
  reflexivity.
Qed.

Lemma Run_twice_on_document_witness :
  Run teamOfFoo
    (snd (Run teamOfFoo
            (oneFile "f.yaml"
               (joinLines ["kind: ConfigMap"; "metadata:"; "  name: foo";
                           "data:"; "  key: value"]))))
  = (None,
     snd (Run teamOfFoo
            (oneFile "f.yaml"
               (joinLines ["kind: ConfigMap"; "metadata:"; "  name: foo";
                           "data:"; "  key: value"])))).
Proof.
  apply (Run_twice_on_document teamOfFoo
           (oneFile "f.yaml"
              (joinLines ["kind: ConfigMap"; "metadata:"; "  name: foo";
                          "data:"; "  key: value"]))
           ["kind: ConfigMap"; "metadata:"; "  name: foo"; "data:";
            "  key: value"]
           "metadata:" ["  name: foo"; "data:"; "  key: value"]);
    [reflexivity | reflexivity | reflexivity | reflexivity | reflexivity
     | discriminate | reflexivity | reflexivity | reflexivity | reflexivity
     | reflexivity].
Defined.

(** ** [readLines] and the text written *)

Lemma scanLines_nil s : scanLines s = [] -> s = EmptyString.
Proof.
  destruct s as [|c r]; cbn [scanLines]; [reflexivity|].
  destruct (Ascii.eqb c "010"%char); [discriminate|].
  destruct (scanLines r); discriminate.
Qed.

Lemma joinLines_scanLines s :
  joinLines (scanLines s) = if terminated s then s else s ++ nl.
Proof.
  induction s as [|c r IH]; cbn [scanLines]; [reflexivity|].
  destruct (Ascii.eqb c "010"%char) eqn:Ec.
  - apply Ascii.eqb_eq in Ec. subst c. cbn [joinLines]. rewrite IH.
    destruct r as [|d r']; [reflexivity|].
    change (terminated (String "010"%char (String d r')))
      with (terminated (String d r')).
    now destruct (terminated (String d r')).
  - destruct (scanLines r) as [|l ls] eqn:Es.
    + apply scanLines_nil in Es. subst r. cbn [joinLines terminated].
      now rewrite Ec.
    + cbn [joinLines] in *. cbn [append]. rewrite IH.
      destruct r as [|d r']; [discriminate Es|].
      change (terminated (String c (String d r')))
        with (terminated (String d r')).
      now destruct (terminated (String d r')).
Qed.

Lemma scanLines_noCR s : noCR s = true -> forallb noCR (scanLines s) = true.
Proof.
  induction s as [|c r IH]; cbn [scanLines noCR]; [reflexivity|].
  intros H. apply andb_true_iff in H as [Hc Hr]. specialize (IH Hr).
  destruct (Ascii.eqb c "010"%char); [cbn [forallb noCR]; exact IH|].
  destruct (scanLines r) as [|l ls]; cbn [forallb noCR] in *.
  - now rewrite Hc.
  - apply andb_true_iff in IH as [Hl Hls]. now rewrite Hc, Hl, Hls.
Qed.

Lemma dropCR_noCR l : noCR l = true -> dropCR l = l.
Proof.
  induction l as [|c r IH]; cbn [noCR dropCR]; [reflexivity|].
  intros H. apply andb_true_iff in H as [Hc Hr].
  apply negb_true_iff in Hc.
  destruct r as [|d r']; [now rewrite Hc|].
  now rewrite (IH Hr).
Qed.

(** The lines [readLines] returns for a content without carriage return,
    written back. *)
Lemma readLines_content (fs : FileSystem) path content ls :
  fs path = Some content ->
  noCR content = true ->
  readLines fs path = inl ls ->
  joinLines ls = if terminated content then content else content ++ nl.
Proof.
  intros Hfs Hcr. unfold readLines. rewrite Hfs.
  destruct (existsb tooLong (scanLines content)); [discriminate|].
  intros H. injection H as <-.
  assert (Hmap : map dropCR (scanLines content) = scanLines content).
  { rewrite <- (map_id (scanLines content)) at 2. apply map_ext_in.
    intros l Hl. apply dropCR_noCR.
    pose proof (scanLines_noCR content Hcr) as Hall.
    rewrite forallb_forall in Hall. now apply Hall. }
  rewrite Hmap. apply joinLines_scanLines.
Qed.

(** X11.  [readLines] gives back the lines a buffer was written from: when
    the content of the file is a sequence of lines each followed by a line
    feed, none holding a line feed, ending in a carriage return or reaching
    the 65536 bytes of the scanner's buffer, it returns these lines and no
    error. *)
Theorem readLines_of_written_lines (fs : FileSystem) path ls :
  fs path = Some (joinLines ls) ->
  forallb plainLine ls = true ->
  readLines fs path = inl ls.
Proof. apply readLines_joinLines. Qed.

Lemma readLines_of_written_lines_witness :
  readLines (oneFile "f.yaml" (joinLines ["kind: Secret"; ""; "data:"]))
    "f.yaml"
  = inl ["kind: Secret"; ""; "data:"].
Proof.
  apply (readLines_of_written_lines _ "f.yaml" ["kind: Secret"; ""; "data:"]);
    reflexivity.
Defined.

(** X12.  Writing back the lines [readLines] returned for a content without
    carriage return gives the content itself when it is empty or ends in a
    line feed, and the content with one line feed added otherwise. *)
Theorem readLines_rejoined (fs : FileSystem) path content ls :
  fs path = Some content ->
  noCR content = true ->
  readLines fs path = inl ls ->
  joinLines ls = if terminated content then content else content ++ nl.
Proof. apply readLines_content. Qed.

Lemma readLines_rejoined_witness :
  joinLines ["kind: Secret"; "data:"] = "kind: Secret" ++ nl ++ "data:" ++ nl.
Proof.
  apply (readLines_rejoined (oneFile "f.yaml" ("kind: Secret" ++ nl ++ "data:"))
           "f.yaml" ("kind: Secret" ++ nl ++ "data:")
           ["kind: Secret"; "data:"]);
    reflexivity.
Defined.

(** ** The values the filters are compared with *)

Lemma kind_not_apiVersion l :
  HasPrefix l "kind:" = true -> HasPrefix l "apiVersion:" = false.
Proof.
  unfold HasPrefix. destruct l as [|c l]; cbn [String.prefix];
    [discriminate|].
  destruct (ascii_dec "k" c) as [<-|Hk]; [|discriminate].
  intros _. destruct (ascii_dec "a" "k") as [E|_]; [discriminate E|].
  reflexivity.
Qed.

Lemma headerLoop_last ls fk fg :
  fold_left headerStep ls (valueAfter "kind:" fk, valueAfter "apiVersion:" fg)
  = (valueAfter "kind:"
       (fold_left (fun acc l => if HasPrefix l "kind:" then Some l else acc)
          ls fk),
     valueAfter "apiVersion:"
       (fold_left (fun acc l =>
                     if HasPrefix l "apiVersion:" then Some l else acc)
          ls fg)).
Proof.
  revert fk fg. induction ls as [|l ls IH]; intros fk fg; cbn [fold_left].
  - reflexivity.
  - unfold headerStep at 2; cbn [fst snd].
    destruct (HasPrefix l "kind:") eqn:Ek.
    + rewrite (kind_not_apiVersion l Ek). apply (IH (Some l) fg).
    + destruct (HasPrefix l "apiVersion:").
      * apply (IH fk (Some l)).
      * apply IH.
Qed.

(** X13.  [kind] and [groupVersion] are read off the last line that begins
    with [kind:], respectively [apiVersion:], as the trimmed text after the
    prefix; each is empty when no line has the prefix. *)
Theorem scanHeader_last_wins ls :
  scanHeader ls
  = (valueAfter "kind:" (lastWith "kind:" ls),
     valueAfter "apiVersion:" (lastWith "apiVersion:" ls)).
Proof. apply (headerLoop_last ls None None). Qed.

Lemma identLoop_last ls fn fs :
  fold_left identStep ls
    (valueAfter "  name:" fn, valueAfter "  namespace:" fs)
  = (valueAfter "  name:"
       (fold_left (fun acc l => if HasPrefix l "  name:" then Some l else acc)
          ls fn),
     valueAfter "  namespace:"
       (fold_left (fun acc l =>
                     if HasPrefix l "  namespace:" then Some l else acc)
          ls fs)).
Proof.
  revert fn fs. induction ls as [|l ls IH]; intros fn fs; cbn [fold_left].
  - reflexivity.
  - unfold identStep at 2; cbn [fst snd].
    destruct (HasPrefix l "  name:"), (HasPrefix l "  namespace:").
    + apply (IH (Some l) (Some l)).
    + apply (IH (Some l) fs).
    + apply (IH fn (Some l)).
    + apply IH.
Qed.

(** X14.  [name] and [namespace] are read off the last line of the metadata
    block that begins with [  name:], respectively [  namespace:], as the
    trimmed text after the prefix; each is empty when no line has the
    prefix. *)
Theorem scanIdent_last_wins ls :
  scanIdent ls
  = (valueAfter "  name:" (lastWith "  name:" ls),
     valueAfter "  namespace:" (lastWith "  namespace:" ls)).
Proof. apply (identLoop_last ls None None). Qed.

(** ** The value-reconciling merger *)

Lemma entryLine_quotedLine quote a :
  Reconciling.entryLine quote a = quotedLine quote a ++ nl.
Proof.
  unfold Reconciling.entryLine, quotedLine. now rewrite !append_assoc.
Qed.

Lemma mergeLoop_spec quote a ls st :
  fold_left (Reconciling.mergeStep quote a) ls st
  = {| Reconciling.changed :=
         Reconciling.changed st || existsb (stale a) ls;
       Reconciling.found := Reconciling.found st || existsb (holdsKey a) ls;
       Reconciling.rOut :=
         Reconciling.rOut st
         ++ joinLines
              (map (fun l => if stale a l then quotedLine quote a else l) ls)
    |}.
Proof.
  revert st. induction ls as [|l ls IH]; intros st;
    cbn [fold_left existsb map joinLines].
  - rewrite !orb_false_r, append_nil_r. now destruct st.
  - rewrite IH. unfold Reconciling.mergeStep, stale, holdsKey, SplitN2.
    destruct (cutColon l) as [[b r]|].
    + destruct (String.eqb (TrimSpace b) (Annotation a)).
      * destruct (String.eqb (Reconciling.trimQuotes (TrimSpace r)) (Value a));
          cbn [negb andb orb Reconciling.changed Reconciling.found
               Reconciling.rOut];
          unfold WriteString;
          rewrite ?entryLine_quotedLine, ?orb_true_r, ?orb_false_r,
            ?append_assoc; reflexivity.
      * cbn [negb andb orb Reconciling.changed Reconciling.found
             Reconciling.rOut].
        unfold WriteString. now rewrite ?orb_false_r, ?append_assoc.
    + cbn [orb Reconciling.changed Reconciling.found Reconciling.rOut].
      unfold WriteString. now rewrite ?orb_false_r, ?append_assoc.
Qed.

Lemma reconciling_spec quote a ls out :
  Reconciling.processAnnotations quote a ls out
  = (out ++ joinLines (reconciled quote a ls),
     existsb (stale a) ls || negb (existsb (holdsKey a) ls)).
Proof.
  unfold Reconciling.processAnnotations, reconciled.
  rewrite mergeLoop_spec;
    cbn [Reconciling.changed Reconciling.found Reconciling.rOut orb].
  rewrite joinLines_app.
  destruct (existsb (holdsKey a) ls); cbn [negb joinLines].
  - now rewrite orb_false_r, !append_nil_r.
  - unfold WriteString.
    now rewrite orb_true_r, entryLine_quotedLine, !append_nil_r, !append_assoc.
Qed.

(** X15.  The value-reconciling merger keeps the number and the order of
    the lines of a block: a line that holds the target key with another
    value is replaced in place by the line of the new entry, every other
    line is written as it is, and the new entry is appended at the end when
    no line holds the key.  It reports a change exactly when it replaced or
    appended a line. *)
Theorem reconciling_in_place quote a ls out :
  Reconciling.processAnnotations quote a ls out
  = (out ++ joinLines (reconciled quote a ls),
     existsb (stale a) ls || negb (existsb (holdsKey a) ls)).
Proof. apply reconciling_spec. Qed.

(** X16.  The value-reconciling merger is idempotent on lines when the line
    it writes for the entry is recognised as holding the key with the value
    (which depends on how the value is quoted): the lines one merge writes
    are written again, with no change reported, by a second merge. *)
Theorem reconciling_idempotent quote a ls out :
  holdsKey a (quotedLine quote a) = true ->
  stale a (quotedLine quote a) = false ->
  Reconciling.processAnnotations quote a (reconciled quote a ls) out
  = (out ++ joinLines (reconciled quote a ls), false).
Proof.
  intros Hk Hs. rewrite reconciling_spec.
  assert (Hfresh : forall l, In l (reconciled quote a ls) -> stale a l = false).
  { intros l Hl. unfold reconciled in Hl. apply in_app_or in Hl as [Hl|Hl].
    - apply in_map_iff in Hl as (x & <- & _).
      destruct (stale a x) eqn:E; [exact Hs | exact E].
    - destruct (existsb (holdsKey a) ls); [contradiction|].
      destruct Hl as [<-|[]]. exact Hs. }
  assert (Hnone : existsb (stale a) (reconciled quote a ls) = false).
  { apply not_true_iff_false. intros He.
    apply existsb_exists in He as (l & Hl & Hst).
    now rewrite (Hfresh l Hl) in Hst. }
  assert (Hheld : existsb (holdsKey a) (reconciled quote a ls) = true).
  { unfold reconciled. rewrite existsb_app.
    destruct (existsb (holdsKey a) ls) eqn:E.
    - apply existsb_exists in E as (x & Hx & Hkx).
      apply orb_true_iff. left. apply existsb_exists.
      exists (if stale a x then quotedLine quote a else x).
      split; [apply in_map_iff; now exists x|].
      now destruct (stale a x).
    - cbn [existsb]. now rewrite Hk, !orb_true_r. }
  rewrite Hnone, Hheld. cbn [negb orb].
  unfold reconciled at 1. rewrite Hheld, app_nil_r.
  assert (Hmap : map (fun l => if stale a l then quotedLine quote a else l)
                   (reconciled quote a ls)
                 = reconciled quote a ls).
  { rewrite <- (map_id (reconciled quote a ls)) at 2. apply map_ext_in.
    intros l Hl. now rewrite (Hfresh l Hl). }
  now rewrite Hmap.
Qed.

Lemma reconciling_idempotent_witness :
  Reconciling.processAnnotations (fun v => dquote ++ v ++ dquote) team
    (reconciled (fun v => dquote ++ v ++ dquote) team
       ["    team: core"; "    # note"; "    zone: b"]) EmptyString
  = (joinLines ["    team: " ++ dquote ++ "platform" ++ dquote; "    # note";
                "    zone: b"], false).
Proof.
  apply (reconciling_idempotent (fun v => dquote ++ v ++ dquote) team
           ["    team: core"; "    # note"; "    zone: b"] EmptyString);
    reflexivity.
Defined.

(** ** The line-sorting merger *)

Lemma includesAnnotation_perm ls1 ls2 k :
  Permutation ls1 ls2 ->
  LineSorter.includesAnnotation ls1 k = true ->
  LineSorter.includesAnnotation ls2 k = true.
Proof.
  unfold LineSorter.includesAnnotation. intros Hp H.
  apply existsb_exists in H as (x & Hin & Hx).
  apply existsb_exists. exists x. split; [|exact Hx].
  eapply Permutation_in; eassumption.
Qed.

(** X17.  The line-sorting merger is idempotent on lines when the line it
    writes for the entry is recognised as holding the key: whenever a merge
    returns, the lines it wrote are written again as they are, with no
    change reported and no panic, by a second merge. *)
Theorem line_sorter_idempotent quote a ls out r :
  LineSorter.includesAnnotation [quotedLine quote a] (Annotation a) = true ->
  LineSorter.processAnnotations quote a ls out = Some r ->
  exists written,
    fst r = out ++ joinLines written
    /\ forall out2,
         LineSorter.processAnnotations quote a written out2
         = Some (out2 ++ joinLines written, false).
Proof.
  intros Hk. unfold LineSorter.processAnnotations at 1.
  fold (quotedLine quote a).
  destruct (negb (LineSorter.includesAnnotation ls (SkipAnnotation a))
            && negb (LineSorter.includesAnnotation ls (Annotation a))) eqn:Hc.
  - destruct (LineSorter.sortAnnotations (ls ++ [quotedLine quote a])%list)
      as [sorted|] eqn:Es; [|discriminate].
    intros H. injection H as <-. cbn [fst].
    exists sorted. split; [apply writeLines_spec|].
    intros out2.
    destruct (sortAnnotations_sorted _ _ Es) as [Hp _].
    assert (Hin : LineSorter.includesAnnotation sorted (Annotation a) = true).
    { apply (includesAnnotation_perm _ _ _ (Permutation_sym Hp)).
      unfold LineSorter.includesAnnotation in *.
      rewrite existsb_app, Hk. apply orb_true_r. }
    unfold LineSorter.processAnnotations. rewrite Hin.
    rewrite andb_false_r. now rewrite writeLines_spec.
  - intros H. injection H as <-. cbn [fst].
    exists ls. split; [apply writeLines_spec|].
    intros out2. unfold LineSorter.processAnnotations. rewrite Hc.
    now rewrite writeLines_spec.
Qed.

Lemma line_sorter_idempotent_witness :
  exists written,
    joinLines ["    app: web"; "    team: " ++ dquote ++ "platform" ++ dquote;
               "    zone: b"]
    = EmptyString ++ joinLines written
    /\ forall out2,
         LineSorter.processAnnotations (fun v => dquote ++ v ++ dquote) team
           written out2
         = Some (out2 ++ joinLines written, false).
Proof.
  apply (line_sorter_idempotent (fun v => dquote ++ v ++ dquote) team
           ["    zone: b"; "    app: web"] EmptyString
           (joinLines ["    app: web";
                       "    team: " ++ dquote ++ "platform" ++ dquote;
                       "    zone: b"], true));
    reflexivity.
Defined.

Lemma hasColon_colon x y : hasColon (x ++ String ":"%char y) = true.
Proof.
  unfold hasColon. induction x as [|c x IH]; cbn [append cutColon].
  - reflexivity.
  - destruct (Ascii.eqb c ":"%char); [reflexivity|].
    destruct (cutColon (x ++ String ":"%char y)) as [[b r]|];
      [reflexivity | discriminate IH].
Qed.

Lemma quotedLine_hasColon quote a : hasColon (quotedLine quote a) = true.
Proof.
  unfold quotedLine.
  change (": " ++ quote (Value a))
    with (String ":"%char (" " ++ quote (Value a))).
  rewrite <- append_assoc. apply hasColon_colon.
Qed.

Lemma LineSorter_Less_defined x y :
  hasColon x = true -> hasColon y = true ->
  exists b, LineSorter.Less x y = Some b.
Proof.
  unfold hasColon. intros Hx Hy. rewrite LineSorter_Less_unfold.
  unfold afterColon.
  destruct (cutColon x) as [[bx ax]|]; [|discriminate].
  destruct (cutColon y) as [[by' ay]|]; [|discriminate].
  destruct (String.eqb _ _); eexists; reflexivity.
Qed.

Lemma LineSorter_sinkLeft_defined x acc :
  hasColon x = true -> forallb hasColon acc = true ->
  exists r, LineSorter.sinkLeft x acc = Some r /\ forallb hasColon r = true.
Proof.
  intros Hx. induction acc as [|y ys IH]; intros Hacc;
    cbn [LineSorter.sinkLeft].
  - exists [x]. split; [reflexivity|]. cbn [forallb]. now rewrite Hx.
  - cbn [forallb] in Hacc. apply andb_true_iff in Hacc as [Hy Hys].
    destruct (LineSorter_Less_defined x y Hx Hy) as [[|] ->].
    + destruct (IH Hys) as (r & -> & Hr).
      exists (y :: r). split; [reflexivity|]. cbn [forallb]. now rewrite Hy.
    + exists (x :: y :: ys). split; [reflexivity|].
      cbn [forallb]. now rewrite Hx, Hy.
Qed.

Lemma LineSorter_loop_defined l acc :
  forallb hasColon l = true -> forallb hasColon acc = true ->
  exists r,
    fold_left (fun acc x =>
                 match acc with
                 | Some sorted => LineSorter.sinkLeft x sorted
                 | None => None
                 end) l (Some acc) = Some r.
Proof.
  revert acc. induction l as [|x l IH]; intros acc Hl Hacc; cbn [fold_left].
  - now exists acc.
  - cbn [forallb] in Hl. apply andb_true_iff in Hl as [Hx Hl].
    destruct (LineSorter_sinkLeft_defined x acc Hx Hacc) as (r & -> & Hr).
    now apply IH.
Qed.

(** X18.  The line-sorting merger does not panic on a block every line of
    which holds a colon: it returns a buffer and a flag.  (Two lines without
    colon and with the same text make it panic when it sorts them.) *)
Theorem line_sorter_returns quote a ls out :
  forallb hasColon ls = true ->
  exists r, LineSorter.processAnnotations quote a ls out = Some r.
Proof.
  intros H. unfold LineSorter.processAnnotations.
  destruct (negb _ && negb _); [|eexists; reflexivity].
  fold (quotedLine quote a). unfold LineSorter.sortAnnotations.
  assert (Hall : forallb hasColon (ls ++ [quotedLine quote a])%list = true).
  { rewrite forallb_app, H. cbn [forallb].
    now rewrite quotedLine_hasColon. }
  destruct (LineSorter_loop_defined _ [] Hall eq_refl) as [r ->].
  eexists; reflexivity.
Qed.

Lemma line_sorter_returns_witness :
  exists r,
    LineSorter.processAnnotations (fun v => v) team
      ["    zone: b"; "    app: web"] EmptyString = Some r.
Proof.
  apply (line_sorter_returns (fun v => v) team
           ["    zone: b"; "    app: web"] EmptyString).
  reflexivity.
Defined.

Example line_sorter_panics quote :
  LineSorter.processAnnotations quote team
    ["    # note"; "    # note"] EmptyString = None.
Proof. reflexivity. Qed.

(** ** The buffer *)

(** X19.  [processManifest] only appends to the buffer: what it writes for
    a document and the flag it returns do not depend on what the buffer
    holds, and what the buffer holds is kept in front of it. *)
Theorem processManifest_appends a ls :
  exists written changed,
    forall out, processManifest a ls out = (out ++ written, changed).
Proof.
  exists (fst (processManifest a ls EmptyString)),
         (snd (processManifest a ls EmptyString)).
  intros out. apply processManifest_out.
Qed.

(** ** The flag of a document *)











(** [metadata:] as the last line: the code after the loop tests
    [len(metadataLines) > 0] and does not call [processMetadata]. *)
Lemma processManifest_trailing a pre m out :
  forallb noMetadata pre = true ->
  isMetadataLine m = true ->
  processManifest a (pre ++ [m])%list out
  = (out ++ joinLines (pre ++ [m])%list, false).
Proof.
  intros Hpre Hm. unfold processManifest.
  destruct (scanHeader (pre ++ [m])%list) as [kind gv].
  rewrite fold_left_app.
  rewrite (manifestLoop_outside a kind gv pre [] false false out Hpre).
  cbn [fold_left]. rewrite (manifestStep_open a kind gv m _ _ _ _ Hm).
  unfold finishManifest; cbn [metadataLines metadataProcessed dChanged dOut
    List.length Nat.ltb Nat.leb negb andb].
  rewrite joinLines_app; cbn [joinLines].
  now rewrite !append_nil_r, !append_assoc.
Qed.



(** An empty block followed by a line that ends it: the loop calls
    [processMetadata] on zero lines, and the block is synthesized. *)
Lemma processManifest_emptyBlock a pre m l out :
  forallb noMetadata pre = true ->
  isMetadataLine m = true ->
  indented2 l = false ->
  noMetadata l = true ->
  filtersDiffer a (pre ++ [m; l])%list = false ->
  processManifest a (pre ++ [m; l])%list out
  = (out ++ joinLines (pre ++ [m; "  annotations:"; newLine a; l])%list, true).
Proof.
  intros Hpre Hm Hl Hnl Hf.
  set (doc := (pre ++ [m; l])%list) in *.
  assert (Hfrom : fromMetadata doc = [m; l])
    by apply (fromMetadata_app pre m [l] Hpre Hm).
  assert (Hblock : metadataBlock doc = []).
  { unfold metadataBlock. rewrite Hfrom. cbn [tl takeIndented].
    now rewrite Hl. }
  assert (Hafter : afterBlock doc = [l]).
  { unfold afterBlock. rewrite Hfrom. cbn [tl dropIndented].
    now rewrite Hl. }
  assert (Hs : singleBlock doc = true).
  { unfold singleBlock. rewrite Hafter. cbn [forallb]. now rewrite Hnl. }
  rewrite (processManifest_withAnnotations a doc out m [l] Hs Hfrom
             ltac:(discriminate) Hf ltac:(now rewrite Hblock)).
  unfold withAnnotations. rewrite Hblock, Hafter.
  unfold doc at 1. now rewrite (beforeMetadata_app pre m [l] Hpre Hm).
Qed.

(** ** The documents of a file *)









(** * The claims *)

(** ** C10: a document without metadata *)

(** C10.  A document none of whose lines begins with [metadata:] is written
    line by line, every line followed by a line feed, and reported unchanged:
    the output holds nothing but the lines of the document, so no annotations
    block and no entry is added. *)
Theorem C10_document_without_metadata a ls out :
  forallb noMetadata ls = true ->
  processManifest a ls out = (out ++ joinLines ls, false).
Proof. apply processManifest_noMetadata. Qed.

Lemma C10_document_without_metadata_witness :
  forallb noMetadata ["kind: ConfigMap"; "data:"; "  key: value"] = true
  /\ processManifest team ["kind: ConfigMap"; "data:"; "  key: value"]
       EmptyString
     = (joinLines ["kind: ConfigMap"; "data:"; "  key: value"], false).
Proof.
  split; [reflexivity|].
  apply (C10_document_without_metadata team
           ["kind: ConfigMap"; "data:"; "  key: value"] EmptyString).
  reflexivity.
Defined.

(** ** C7: [metadata:] as the last line *)

(** C7.  The claim asks that the metadata step run on the empty block of a
    document whose last line is [metadata:], as it does on an empty block
    that another line follows.  The code after the loop runs the step only
    when [len(metadataLines) > 0]: when [metadata:] is the last line, and
    the first that begins so, every line is copied, nothing is synthesized
    and the document is reported unchanged, whatever the filters.  With one
    more line after it, not indented, the loop runs the step on zero lines
    and, the filters selecting the document, the block is synthesized. *)
Theorem C7_empty_block_at_end_not_processed a pre m out :
  forallb noMetadata pre = true ->
  isMetadataLine m = true ->
  processManifest a (pre ++ [m])%list out
  = (out ++ joinLines (pre ++ [m])%list, false)
  /\ (forall l,
        indented2 l = false ->
        noMetadata l = true ->
        filtersDiffer a (pre ++ [m; l])%list = false ->
        processManifest a (pre ++ [m; l])%list out
        = (out ++ joinLines
                    (pre ++ [m; "  annotations:"; newLine a; l])%list,
           true)).
Proof.
  intros Hpre Hm. split.
  - now apply processManifest_trailing.
  - intros l Hl Hnl Hf. now apply processManifest_emptyBlock.
Qed.

Lemma C7_empty_block_at_end_not_processed_witness :
  processManifest team ["kind: ConfigMap"; "metadata:"] EmptyString
  = (joinLines ["kind: ConfigMap"; "metadata:"], false)
  /\ processManifest team ["kind: ConfigMap"; "metadata:"; "spec:"]
       EmptyString
     = (joinLines ["kind: ConfigMap"; "metadata:"; "  annotations:";
                   "    team: platform"; "spec:"], true).
Proof.
  split.
  - exact (proj1 (C7_empty_block_at_end_not_processed team
                    ["kind: ConfigMap"] "metadata:" EmptyString
                    eq_refl eq_refl)).
  - exact (proj2 (C7_empty_block_at_end_not_processed team
                    ["kind: ConfigMap"] "metadata:" EmptyString
                    eq_refl eq_refl)
             "spec:" eq_refl eq_refl eq_refl).
Defined.

(** ** C6: the synthesized block *)

(** C6, as stated, fails: the value of the new entry is written as it was
    given, without quotes. *)
Lemma C6_counterexample :
  processManifest team ["metadata:"; "  name: foo"] EmptyString
  = (joinLines ["metadata:"; "  name: foo"; "  annotations:";
                "    team: platform"], true)
  /\ String.eqb
       (fst (processManifest team ["metadata:"; "  name: foo"] EmptyString))
       (joinLines ["metadata:"; "  name: foo"; "  annotations:";
                   "    team: " ++ dquote ++ "platform" ++ dquote])
     = false.
Proof. split; reflexivity. Qed.

(** C6, amended.  In a matching document with one metadata block in which
    no line begins with [  annotations:], the line [  annotations:] and the
    entry [    <key>: <value>] (the value as given, unquoted) are written
    right after the lines of the metadata block, and the document is
    reported changed. *)
Theorem C6_annotations_synthesized a doc out m rest :
  singleBlock doc = true ->
  fromMetadata doc = m :: rest ->
  rest <> [] ->
  filtersDiffer a doc = false ->
  forallb noAnnotations (metadataBlock doc) = true ->
  processManifest a doc out
  = (out ++ joinLines (beforeMetadata doc) ++ m ++ nl
         ++ joinLines (metadataBlock doc)
         ++ "  annotations:" ++ nl
         ++ "    " ++ Annotation a ++ ": " ++ Value a ++ nl
         ++ joinLines (afterBlock doc), true).
Proof.
  intros Hs Hm Hrest Hf Hno.
  rewrite (processManifest_singleBlock a doc out m rest Hs Hm).
  unfold filtersDiffer in Hf.
  pose proof (processMetadata_synthesize _ _ _ _ EmptyString Hf Hno) as Hsyn.
  assert (Hne : metadataBlock doc <> [] \/ afterBlock doc <> []).
  { unfold metadataBlock, afterBlock. rewrite Hm; cbn [tl].
    destruct rest as [|l r]; [contradiction|]. cbn [takeIndented dropIndented].
    destruct (indented2 l); [left | right]; discriminate. }
  destruct (metadataBlock doc) as [|b bs], (afterBlock doc) as [|p ps];
    [destruct Hne as [Hne|Hne]; contradiction| | |];
    cbv zeta; rewrite Hsyn; cbn [fst snd];
    rewrite append_nil_l; now rewrite !append_assoc.
Qed.

Lemma C6_annotations_synthesized_witness :
  processManifest teamOfFoo
    ["kind: ConfigMap"; "metadata:"; "  name: foo"; "data:"] EmptyString
  = (joinLines ["kind: ConfigMap"; "metadata:"; "  name: foo";
                "  annotations:"; "    team: platform"; "data:"], true).
Proof.
  apply (C6_annotations_synthesized teamOfFoo
           ["kind: ConfigMap"; "metadata:"; "  name: foo"; "data:"]
           EmptyString "metadata:" ["  name: foo"; "data:"]);
    [reflexivity | reflexivity | discriminate | reflexivity | reflexivity].
Defined.

(** ** C3: the filters *)




(** ** C8: documents the filters exclude, in a file of several documents *)




(** In the buffer, a last line without line feed gains one; [Run] does not
    write this buffer, the last document being unchanged. *)
Example final_line_feed_added_in_buffer :
  let content :=
    joinLines ["kind: ConfigMap"; "metadata:"; "  name: foo"; "---"]
    ++ "kind: Secret" in
  readLines (oneFile "f.yaml" content) "f.yaml"
  = inl ["kind: ConfigMap"; "metadata:"; "  name: foo"; "---"; "kind: Secret"]
  /\ assemble teamOfFoo
       ["kind: ConfigMap"; "metadata:"; "  name: foo"; "---"; "kind: Secret"]
     = (joinLines ["kind: ConfigMap"; "metadata:"; "  name: foo";
                   "  annotations:"; "    team: platform"; "---";
                   "kind: Secret"], false).
Proof. split; reflexivity. Qed.

(** ** C1: when [Run] writes the file *)

(** C1.  The claim asks for a write whenever a document changed; [Run] keeps
    the flag of the last document only.  Here the first of two documents
    gains the annotation in the buffer, the second has no metadata, and the
    file is left as it was. *)
Theorem C1_change_before_last_document_not_written :
  let content := joinLines ["metadata:"; "  name: a"; "---"; "kind: Secret"] in
  let fs := oneFile "f.yaml" content in
  readLines fs "f.yaml"
  = inl ["metadata:"; "  name: a"; "---"; "kind: Secret"]
  /\ processManifest team ["metadata:"; "  name: a"] EmptyString
     = (joinLines ["metadata:"; "  name: a"; "  annotations:";
                   "    team: platform"], true)
  /\ assemble team ["metadata:"; "  name: a"; "---"; "kind: Secret"]
     = (joinLines ["metadata:"; "  name: a"; "  annotations:";
                   "    team: platform"; "---"; "kind: Secret"], false)
  /\ Run team fs = (None, fs).
Proof. repeat split; reflexivity. Qed.

(** ** C2: running twice *)

(** C2.  A metadata block whose [  annotations:] line has no entry under it:
    the first run writes a second [  annotations:] line before the new
    entry, and the second run, with the same arguments, moves the entry and
    writes the file again. *)
Theorem C2_second_run_changes_file :
  let fs0 := oneFile "f.yaml" (joinLines ["metadata:"; "  annotations:"]) in
  let fs1 := snd (Run team fs0) in
  let fs2 := snd (Run team fs1) in
  fs1 "f.yaml"
  = Some (joinLines ["metadata:"; "  annotations:"; "  annotations:";
                     "    team: platform"])
  /\ fs2 "f.yaml"
     = Some (joinLines ["metadata:"; "  annotations:"; "    team: platform";
                        "  annotations:"]).
Proof. split; reflexivity. Qed.

(** ** C9: lines of an annotation block that cannot be parsed *)

(** C9.  A line without colon, indented by fewer than six spaces, is
    tolerated and opens no entry, but it is not preserved: the entry-based
    merger writes and returns what it would without that line. *)
Theorem C9_unparsable_line_dropped a pre l post out :
  isContinuation l = false ->
  hasColon l = false ->
  processAnnotations a (pre ++ l :: post)%list out
  = processAnnotations a (pre ++ post)%list out.
Proof.
  intros Hc Hn. unfold processAnnotations.
  now rewrite (parseAnnotations_unparsable pre l post Hc Hn).
Qed.

Lemma C9_unparsable_line_dropped_witness :
  processAnnotations team
    (["    team: platform"] ++ "    # owner of the map" :: ["    zone: b"])%list
    EmptyString
  = (joinLines ["    team: platform"; "    zone: b"], false).
Proof.
  rewrite (C9_unparsable_line_dropped team ["    team: platform"]
             "    # owner of the map" ["    zone: b"] EmptyString
             eq_refl eq_refl).
  reflexivity.
Defined.

(** The value-reconciling merger writes the same block as it is. *)
Example reconciling_keeps_unparsable_line quote :
  Reconciling.processAnnotations quote team
    ["    team: platform"; "    # owner of the map"; "    zone: b"]
    EmptyString
  = (joinLines ["    team: platform"; "    # owner of the map";
                "    zone: b"], false).
Proof. reflexivity. Qed.

(** ** C4: the order of the written entries *)

(** C4, as stated, fails: the entry-based merger compares keys only, so two
    entries with the same key keep the order [sort.Sort] leaves them in; here
    the value [ b] is written before the value [ a]. *)
Lemma C4_counterexample :
  processAnnotations team ["    zone: b"; "    zone: a"] EmptyString
  = (joinLines ["    team: platform"; "    zone: b"; "    zone: a"], true)
  /\ String.ltb " a" " b" = true.
Proof. split; reflexivity. Qed.

(** C4, amended.  When the merge reports a change, the parsed entries and
    the new one are written in key order: in the entry-based merger by the
    trimmed key, with no rule for equal keys; in the line-sorting merger by
    the text before the colon, equal texts ordered by the text after it.
    When it reports no change, the entries are written in their original
    order with all their lines, which is the input block itself when every
    line of the block belongs to an entry, and always in the line-sorting
    merger. *)
Theorem C4_written_order a quote ls out :
  (let r := processAnnotations a ls out in
   if snd r then
     exists sorted,
       Permutation sorted (Add (parseAnnotations ls) (Annotation a) (Value a))
       /\ StronglySorted keyLe sorted
       /\ fst r = out ++ joinLines (flat_map lines sorted)
   else
     fst r = out ++ joinLines (flat_map lines (parseAnnotations ls))
     /\ (wholeBlock ls = true -> fst r = out ++ joinLines ls))
  /\ match LineSorter.processAnnotations quote a ls out with
     | Some (o, true) =>
         exists sorted,
           Permutation sorted
             (ls ++ [("    " ++ Annotation a ++ ": " ++ quote (Value a))%string])%list
           /\ StronglySorted lineLe sorted
           /\ o = out ++ joinLines sorted
     | Some (o, false) => o = out ++ joinLines ls
     | None => True
     end.
Proof.
  split.
  - unfold processAnnotations.
    destruct (negb _ && negb _); cbn [fst snd]; cbv zeta; cbn [fst snd].
    + exists (Sort (Add (parseAnnotations ls) (Annotation a) (Value a))).
      split; [apply Sort_perm|]. split; [apply Sort_sorted|].
      apply Write_spec.
    + split; [apply Write_spec|].
      intros Hw. rewrite Write_spec, parseAnnotations_lines.
      now rewrite (ownedLines_whole ls Hw).
  - unfold LineSorter.processAnnotations.
    destruct (negb _ && negb _).
    + destruct (LineSorter.sortAnnotations _) as [sorted|] eqn:E; [|exact I].
      destruct (sortAnnotations_sorted _ _ E) as [Hp Hs].
      exists sorted. split; [exact Hp|]. split; [exact Hs|].
      apply writeLines_spec.
    + apply writeLines_spec.
Qed.

Lemma C4_written_order_witness :
  wholeBlock ["    zone: b"; "    team: core"] = true
  /\ fst (processAnnotations team ["    zone: b"; "    team: core"] EmptyString)
     = joinLines ["    zone: b"; "    team: core"].
Proof.
  split; [reflexivity|].
  pose proof (proj1 (C4_written_order team (fun v => v)
                       ["    zone: b"; "    team: core"] EmptyString)) as H.
  cbv zeta in H.
  change (snd (processAnnotations team ["    zone: b"; "    team: core"]
                 EmptyString)) with false in H.
  cbv iota in H. exact (proj2 H eq_refl).
Defined.

(** The line-sorting merger on the same two blocks: equal keys come out in
    the order of the text after the colon. *)
Example line_sorter_breaks_ties quote :
  LineSorter.processAnnotations quote team
    ["    zone: b"; "    zone: a"; "    team: core"] EmptyString
  = Some (joinLines ["    zone: b"; "    zone: a"; "    team: core"], false)
  /\ LineSorter.processAnnotations (fun v => dquote ++ v ++ dquote) team
       ["    zone: b"; "    zone: a"] EmptyString
     = Some (joinLines ["    team: " ++ dquote ++ "platform" ++ dquote;
                        "    zone: a"; "    zone: b"], true).
Proof. split; reflexivity. Qed.

(** ** C5: the skip key *)

(** With the skip key among the entries, both mergers report no change and
    add nothing; the entry-based one writes the parsed entries in their
    order, the line-sorting one the lines as they are. *)
Lemma skip_key_no_change a quote ls out :
  (Includes (parseAnnotations ls) (SkipAnnotation a) = true ->
   processAnnotations a ls out
   = (out ++ joinLines (flat_map lines (parseAnnotations ls)), false))
  /\ (LineSorter.includesAnnotation ls (SkipAnnotation a) = true ->
      LineSorter.processAnnotations quote a ls out
      = Some (out ++ joinLines ls, false)).
Proof.
  split; intros H.
  - unfold processAnnotations. rewrite H; cbn [negb andb].
    now rewrite andb_false_r, Write_spec.
  - unfold LineSorter.processAnnotations. rewrite H; cbn [negb andb].
    now rewrite writeLines_spec.
Qed.

(** C5.  The skip key is present and the merge reports no change, with or
    without the target key; but the block is not written unchanged by the
    entry-based merger: the line without colon is missing from its output.
    The line-sorting merger writes the block as it is. *)
Theorem C5_skip_key_drops_unparsable_line :
  Includes (parseAnnotations ["    managed: yes"; "    # set by the operator"])
    (SkipAnnotation teamUnlessManaged) = true
  /\ processAnnotations teamUnlessManaged
       ["    managed: yes"; "    # set by the operator"] EmptyString
     = (joinLines ["    managed: yes"], false)
  /\ (forall quote,
        LineSorter.processAnnotations quote teamUnlessManaged
          ["    managed: yes"; "    # set by the operator"] EmptyString
        = Some (joinLines ["    managed: yes"; "    # set by the operator"],
                false)).
Proof. repeat split; reflexivity. Qed.
